(** * youtube.py: format policy, progress hooks and job control

    A shallow embedding of [youtube.py] (a Tk and command-line front end
    to yt-dlp) and the properties of its quality table, option builder,
    progress hooks, download runner and Download-button handler.

    Conventions.
    - Python [str] is [string] (a sequence of bytes, UTF-8 for the few
      non-ASCII literals of the source).
    - Python numbers ([int] and [float]) are exact rationals [Q]; binary
      floating-point rounding is not modelled.
    - The dictionary [QUALITY_MAP] is a [gmap string string] built from
      its items in source order.
    - [pathlib], the file system and yt-dlp are outside the program:
      they are variables of the section [Host]. *)

From Stdlib Require Import ZArith QArith Ascii DecimalString.
From stdpp Require Import gmap strings list.

Local Open Scope Z_scope.

(** ** Python string operations used by the source *)

Module PyStr.

(** [startswith s p]: [s.startswith(p)]. *)
Fixpoint startswith (s p : string) : bool :=
  match p, s with
  | EmptyString, _ => true
  | String c p', String d s' => if Ascii.eqb c d then startswith s' p' else false
  | String _ _, EmptyString => false
  end.

(** [contains sub s]: the Python expression [sub in s]. *)
Fixpoint contains (sub s : string) : bool :=
  if startswith s sub then true
  else match s with
       | EmptyString => false
       | String _ s' => contains sub s'
       end.

(** ASCII white space as [str.strip()] sees it: TAB, LF, VT, FF, CR,
    the separators 0x1c to 0x1f, and the space. *)
Definition isspace (c : ascii) : bool :=
  let n := nat_of_ascii c in
  ((9 <=? n)%nat && (n <=? 13)%nat) || ((28 <=? n)%nat && (n <=? 32)%nat).

Fixpoint lstrip (s : string) : string :=
  match s with
  | String c s' => if isspace c then lstrip s' else s
  | EmptyString => EmptyString
  end.

Fixpoint rstrip (s : string) : string :=
  match s with
  | EmptyString => EmptyString
  | String c s' =>
      match rstrip s' with
      | EmptyString => if isspace c then EmptyString else String c EmptyString
      | r => String c r
      end
  end.

(** [strip s]: [s.strip()]. *)
Definition strip (s : string) : string := rstrip (lstrip s).

(** Truth value of a string: non-empty. *)
Definition truthy (s : string) : bool :=
  match s with EmptyString => false | String _ _ => true end.

(** [split sep s]: [s.split(sep)] for a one-character separator; the
    result is never empty. *)
Fixpoint split (sep : ascii) (s : string) : list string :=
  match s with
  | EmptyString => [EmptyString]
  | String c s' =>
      if Ascii.eqb c sep then EmptyString :: split sep s'
      else match split sep s' with
           | w :: ws => String c w :: ws
           | [] => [String c EmptyString]
           end
  end.

(** [sep.join(ws)] *)
Definition join (sep : string) (ws : list string) : string :=
  String.concat sep ws.

End PyStr.

(** ** Module constants *)

Definition APP_TITLE : string := "Simple YouTube Downloader (yt-dlp)".
Definition DEFAULT_TEMPLATE : string := "%(title)s [%(id)s].%(ext)s".

(** The items of [QUALITY_MAP], in source order; adjacent string
    literals of the source are concatenated. *)
Definition QUALITY_ITEMS : list (string * string) :=
  [ ("Best (video+audio)",
      "b[ext=mp4]/" +:+
      "bv*[ext=mp4]+ba[ext=m4a]/" +:+
      "bv*+ba/best");
    ("1080p (if available)",
      "b[height<=1080][ext=mp4]/" +:+
      "bv*[height<=1080][ext=mp4]+ba[ext=m4a]/" +:+
      "bv*[height<=1080]+ba/best[height<=1080]");
    ("720p (if available)",
      "b[height<=720][ext=mp4]/" +:+
      "bv*[height<=720][ext=mp4]+ba[ext=m4a]/" +:+
      "bv*[height<=720]+ba/best[height<=720]");
    ("Audio only (m4a/mp3)", "bestaudio/best") ].

Definition QUALITY_MAP : gmap string string := list_to_map QUALITY_ITEMS.

(** [list(QUALITY_MAP.keys())] *)
Definition QUALITY_KEYS : list string := fst <$> QUALITY_ITEMS.

(** [QUALITY_MAP.get(quality_key, QUALITY_MAP["Best (video+audio)"])].
    The default is a subscript, evaluated before the call: a missing
    "Best (video+audio)" key would raise [KeyError], which is [None]
    here. *)
Definition quality_format (quality_key : string) : option string :=
  match QUALITY_MAP !! "Best (video+audio)" with
  | Some dflt => Some (default dflt (QUALITY_MAP !! quality_key))
  | None => None
  end.

(** ** The options dictionary *)

(** A post-processor entry; the ["key"] field is the constructor. *)
Inductive postprocessor : Type :=
  | FFmpegExtractAudio (preferredcodec preferredquality : string)
  | FFmpegVideoRemuxer (preferedformat : string).

(** The selection of post-processors in [build_ydl_opts]. *)
Definition build_postprocessors (quality_key : string)
    (audio_only_prefer_mp3 : bool) : list postprocessor :=
  let postprocessors := [] in
  if PyStr.contains "Audio only" quality_key then
    postprocessors ++
      [FFmpegExtractAudio (if audio_only_prefer_mp3 then "mp3" else "m4a") "192"]
  else
    postprocessors ++ [FFmpegVideoRemuxer "mp4"].

(** ** yt-dlp format selectors

    The values of [QUALITY_MAP] are written in yt-dlp's selector
    syntax: alternatives separated by [/] are tried from left to right
    (the fallback tiers), streams joined by [+] are merged, and a
    stream is a name followed by bracketed filters. *)

Module Selector.

Record stream : Type := Stream { kind : string; filters : list string }.

(** A tier: one alternative, the streams it merges. *)
Abbreviation tier := (list stream).

Definition tiers (fmt : string) : list string := PyStr.split "/" fmt.

(** Drops the closing bracket of a filter. *)
Fixpoint unbracket (s : string) : string :=
  match s with
  | EmptyString => EmptyString
  | String c EmptyString => if Ascii.eqb c "]" then EmptyString else s
  | String c s' => String c (unbracket s')
  end.

Definition parse_stream (s : string) : stream :=
  match PyStr.split "[" s with
  | name :: fs => Stream name (unbracket <$> fs)
  | [] => Stream s []
  end.

Definition parse_tier (t : string) : tier :=
  parse_stream <$> PyStr.split "+" t.

Definition parse (fmt : string) : list tier := parse_tier <$> tiers fmt.

Definition show_stream (s : stream) : string :=
  kind s +:+ PyStr.join "" ((fun f => "[" +:+ f +:+ "]") <$> filters s).

Definition show_tier (t : tier) : string := PyStr.join "+" (show_stream <$> t).

Definition show (ts : list tier) : string := PyStr.join "/" (show_tier <$> ts).

(** The bound [n] of a filter [height<=n]. *)
Definition height_le (f : string) : option N :=
  if PyStr.startswith f "height<=" then
    match NilEmpty.uint_of_string (String.substring 8 (String.length f - 8) f) with
    | Some d => Some (N.of_uint d)
    | None => None
    end
  else None.

Definition is_height (f : string) : bool := PyStr.startswith f "height".

Definition stream_heights (s : stream) : list N := omap height_le (filters s).

(** Every height bound of a tier. *)
Definition tier_heights (t : tier) : list N := t ≫= stream_heights.

(** Every height bound of a selector. *)
Definition heights (fmt : string) : list N := parse fmt ≫= tier_heights.

Definition erase_height_stream (s : stream) : stream :=
  Stream (kind s) (List.filter (fun f => negb (is_height f)) (filters s)).

(** The selector with its height filters removed. *)
Definition erase_height (ts : list tier) : list tier :=
  (fun t : tier => erase_height_stream <$> t) <$> ts.

End Selector.

(** ** Number formatting of the f-strings *)

Module Fmt.

(** Rounding to the nearest integer, ties to even. *)
Definition round_half_even (q : Q) : Z :=
  let n := Qnum q in
  let d := Zpos (Qden q) in
  let fl := n / d in
  let r := n mod d in
  match (2 * r) ?= d with
  | Lt => fl
  | Gt => fl + 1
  | Eq => if Z.even fl then fl else fl + 1
  end.

Definition digits (n : Z) : string := NilEmpty.string_of_uint (N.to_uint (Z.to_N n)).

Fixpoint replicate_char (n : nat) (c : ascii) : string :=
  match n with
  | O => EmptyString
  | S n' => String c (replicate_char n' c)
  end.

(** Pads on the left with [c] up to [width] characters. *)
Definition pad_left (width : nat) (c : ascii) (s : string) : string :=
  replicate_char (width - String.length s) c +:+ s.

(** [format(q, "{width}.{prec}f")]: fixed point with [prec] decimals,
    right-aligned in [width] columns. *)
Definition fixed (width prec : nat) (q : Q) : string :=
  let scale := 10 ^ Z.of_nat prec in
  let n := Z.abs (round_half_even (q * inject_Z scale)) in
  let sign := if Z.ltb (Qnum q) 0 then "-" else "" in
  let frac := match prec with
              | O => ""
              | _ => "." +:+ pad_left prec "0" (digits (n mod scale))
              end in
  pad_left width " " (sign +:+ digits (n / scale) +:+ frac).

(** [int(q)]: truncation towards zero. *)
Definition int (q : Q) : Z := Z.quot (Qnum q) (Zpos (Qden q)).

(** [str(n)] of an integer. *)
Definition str_int (n : Z) : string := NilZero.string_of_int (Z.to_int n).

End Fmt.

(** Truth value of a number: non-zero. *)
Definition Q_truthy (q : Q) : bool := negb (Qnum q =? 0).

(** Truth value of an optional number ([None] is false). *)
Definition optQ_truthy (o : option Q) : bool :=
  match o with Some q => Q_truthy q | None => false end.

(** [a or b] where [b] is a number: [a] when it is truthy. *)
Definition or_num (a : option Q) (b : Q) : Q :=
  match a with
  | Some q => if Q_truthy q then q else b
  | None => b
  end.

(** ** Progress events

    The dictionary yt-dlp passes to a progress hook, restricted to the
    keys the hooks read. A field is [None] when the key is missing or
    maps to [None] ([d.get] gives [None] in both cases). *)
Record event : Type := Event {
  status : option string;
  total_bytes : option Q;
  total_bytes_estimate : option Q;
  downloaded_bytes : option Q;
  speed : option Q;
  eta : option Q
}.

(** [d.get("total_bytes") or d.get("total_bytes_estimate") or 0] *)
Definition hook_total (d : event) : Q :=
  match total_bytes d with
  | Some q => if Q_truthy q then q else or_num (total_bytes_estimate d) 0
  | None => or_num (total_bytes_estimate d) 0
  end.

(** [d.get("downloaded_bytes") or 0] *)
Definition hook_downloaded (d : event) : Q := or_num (downloaded_bytes d) 0.

(** [(downloaded / total * 100) if total else 0] *)
Definition hook_pct (d : event) : Q :=
  let total := hook_total d in
  let downloaded := hook_downloaded d in
  if Q_truthy total then downloaded / total * 100 else 0.

(** The [" | x.xx MB/s"] part of both hooks' message. *)
Definition speed_part (spd : option Q) : string :=
  match spd with
  | Some v => if Q_truthy v
              then " | " +:+ Fmt.fixed 0 2 (v / 1024 / 1024) +:+ " MB/s"
              else ""
  | None => ""
  end.

(** The [" | ETA ns"] part of both hooks' message. *)
Definition eta_part (e : option Q) : string :=
  match e with
  | Some v => if Q_truthy v
              then " | ETA " +:+ Fmt.str_int (Fmt.int v) +:+ "s"
              else ""
  | None => ""
  end.

(** ** Exceptions and effects

    An exception is an instance of [Exception], the class the handlers
    of the source name: yt-dlp's [DownloadError] or anything else.
    [str(e)] is the message it carries. *)
Inductive exn : Type :=
  | DownloadError (msg : string)
  | OtherException (msg : string).

Definition exn_str (e : exn) : string :=
  match e with DownloadError m => m | OtherException m => m end.

Inductive result (A : Type) : Type :=
  | Ok (a : A)
  | Raise (e : exn).
Arguments Ok {A} a.
Arguments Raise {A} e.

(** A statement over a mutable state [S]: the state it leaves, and the
    value it returns or the exception it lets escape. *)
Definition M (S A : Type) : Type := S -> S * result A.

#[global] Instance M_ret {S} : MRet (M S) := fun A a s => (s, Ok a).

#[global] Instance M_bind {S} : MBind (M S) := fun A B k m s =>
  match m s with
  | (s', Ok a) => k a s'
  | (s', Raise e) => (s', Raise e)
  end.

Definition raise {S A} (e : exn) : M S A := fun s => (s, Raise e).

Definition modify {S} (f : S -> S) : M S unit := fun s => (f s, Ok tt).

Definition gets {S A} (f : S -> A) : M S A := fun s => (s, Ok (f s)).

(** A pure computation that may raise, run as a statement. *)
Definition lift {S A} (r : result A) : M S A := fun s => (s, r).

(** [try: body  except ... as e: handler e] where the handlers cover
    every exception. *)
Definition try_except {S A} (body : M S A) (handler : exn -> M S A) : M S A :=
  fun s =>
    match body s with
    | (s', Ok a) => (s', Ok a)
    | (s', Raise e) => handler e s'
    end.

(** [try: body  finally: fin] *)
Definition try_finally {S A} (body : M S A) (fin : M S unit) : M S A :=
  fun s =>
    match body s with
    | (s', r) =>
        match fin s' with
        | (s'', Ok _) => (s'', r)
        | (s'', Raise e) => (s'', Raise e)
        end
    end.

(** The state a statement leaves, and whether it returned. *)
Definition exec {S A} (m : M S A) (s : S) : S := fst (m s).

Definition returns {S A} (m : M S A) (s : S) : bool :=
  match snd (m s) with Ok _ => true | Raise _ => false end.

(** ** The options dictionary of [build_ydl_opts] *)

Abbreviation Path := string (only parsing).

Record ydl_opts (Hook : Type) : Type := YdlOpts {
  outtmpl : string;
  format : string;
  noprogress : bool;
  nopart : bool;
  concurrent_fragment_downloads : Z;
  retries : Z;
  ignoreerrors : string;
  postprocessors : list postprocessor;
  progress_hooks : option (list Hook);
  merge_output_format : string;
  quiet : bool;
  no_warnings : bool;
  keepvideo : bool;
  writethumbnail : bool;
  writeinfojson : bool;
  format_sort : list string;
  ratelimit : option Z;
  throttledratelimit : option Z
}.
Arguments YdlOpts {Hook}.
Arguments outtmpl {Hook}.
Arguments format {Hook}.
Arguments concurrent_fragment_downloads {Hook}.
Arguments retries {Hook}.
Arguments ignoreerrors {Hook}.
Arguments postprocessors {Hook}.
Arguments progress_hooks {Hook}.
Arguments merge_output_format {Hook}.
Arguments format_sort {Hook}.

Section Host.

(** [pathlib] and the file system. A path is its [str()] form.
    - [expanduser s] is [Path(s).expanduser()];
    - [joinpath p name] is [p / name];
    - [mkdir p] is the exception [p.mkdir(parents=True, exist_ok=True)]
      raises, if any. *)
Variable expanduser : string -> Path.
Variable joinpath : Path -> string -> Path.
Variable mkdir : Path -> option exn.

(** yt-dlp.
    - [YoutubeDL_enter opts] is the exception raised by constructing
      and entering [YoutubeDL(opts)], if any;
    - [YoutubeDL_download opts urls] is what [ydl.download(urls)]
      does: the progress events it passes to the registered hooks, in
      order, and the exception it raises at the end, if any. *)
Variable YoutubeDL_enter : forall Hook, ydl_opts Hook -> option exn.
Variable YoutubeDL_download :
  forall Hook, ydl_opts Hook -> list string -> list event * option exn.

Definition build_ydl_opts {Hook} (save_dir : Path) (quality_key : string)
    (audio_only_prefer_mp3 : bool) (progress_hook : option Hook)
    : result (ydl_opts Hook) :=
  match quality_format quality_key with
  | None => Raise (OtherException "'Best (video+audio)'")
  | Some fmt =>
      let postprocessors := build_postprocessors quality_key audio_only_prefer_mp3 in
      Ok {| outtmpl := joinpath save_dir DEFAULT_TEMPLATE;
            format := fmt;
            noprogress := true;
            nopart := false;
            concurrent_fragment_downloads := 4;
            retries := 5;
            ignoreerrors := "only_download";
            postprocessors := postprocessors;
            progress_hooks := match progress_hook with
                              | Some h => Some [h]
                              | None => None
                              end;
            merge_output_format := "mp4";
            quiet := true;
            no_warnings := true;
            keepvideo := false;
            writethumbnail := false;
            writeinfojson := false;
            format_sort := ["vcodec:h264"; "acodec:aac"; "ext:mp4:m4a"];
            ratelimit := None;
            throttledratelimit := None |}
  end.

Section Runner.

Context {S : Type}.

Abbreviation Hook := (event -> M S unit).

(** yt-dlp calls every registered hook on an event. *)
Fixpoint call_hooks (hooks : list Hook) (d : event) : M S unit :=
  match hooks with
  | [] => mret tt
  | h :: hs => h d ;; call_hooks hs d
  end.

Fixpoint emit (hooks : list Hook) (evs : list event) : M S unit :=
  match evs with
  | [] => mret tt
  | d :: evs' => call_hooks hooks d ;; emit hooks evs'
  end.

(** [ydl.download(urls)]; the return code is dropped. *)
Definition ydl_download (opts : ydl_opts Hook) (urls : list string) : M S unit :=
  let '(evs, fin) := YoutubeDL_download Hook opts urls in
  emit (default [] (progress_hooks opts)) evs ;;
  match fin with
  | Some e => raise e
  | None => mret tt
  end.

(** [with YoutubeDL(opts) as ydl: body] *)
Definition with_YoutubeDL (opts : ydl_opts Hook) (body : M S unit) : M S unit :=
  match YoutubeDL_enter Hook opts with
  | Some e => raise e
  | None => body
  end.

Definition run_download (url : string) (save_dir : Path) (quality_key : string)
    (prefer_mp3 : bool) (hook : Hook) (log : string -> M S unit) : M S unit :=
  ydl_opts ← lift (build_ydl_opts save_dir quality_key
                     (PyStr.contains "Audio only" quality_key && prefer_mp3)
                     (Some hook));
  try_except
    (with_YoutubeDL ydl_opts
       (log ("Starting download to: " +:+ save_dir) ;;
        ydl_download ydl_opts [url] ;;
        log "✅ Done."))
    (fun e =>
       match e with
       | DownloadError _ => log ("❌ Download failed: " +:+ exn_str e)
       | OtherException _ => log ("❌ Unexpected error: " +:+ exn_str e)
       end).

End Runner.

(** ** The window *)

Inductive widget_state : Type := normal | disabled.

(** A [messagebox] call. *)
Inductive dialog : Type :=
  | showwarning (title message : string)
  | showerror (title message : string)
  | showinfo (title message : string).

(** A [threading.Thread] running [worker]: its identity and the
    variables [url] and [save_dir] its closure captured. *)
Record Thread : Type := MkThread {
  th_ident : nat;
  th_url : string;
  th_save_dir : Path
}.

(** The attributes of [App] the handlers touch, the text of the log
    widget, the message boxes shown and the threads started so far. *)
Record App : Type := MkApp {
  url_var : string;
  dir_var : string;
  quality_var : string;
  prefer_mp3_var : bool;
  progress_var : Q;
  status_var : string;
  log_txt : string;
  btn_download : widget_state;
  btn_cancel : widget_state;
  downloading : bool;
  thread : option Thread;
  dialogs : list dialog;
  started : list Thread;
  destroyed : bool
}.

Definition set_progress_var (v : Q) (a : App) : App :=
  MkApp (url_var a) (dir_var a) (quality_var a) (prefer_mp3_var a) v
    (status_var a) (log_txt a) (btn_download a) (btn_cancel a)
    (downloading a) (thread a) (dialogs a) (started a) (destroyed a).

Definition set_status_var (v : string) (a : App) : App :=
  MkApp (url_var a) (dir_var a) (quality_var a) (prefer_mp3_var a)
    (progress_var a) v (log_txt a) (btn_download a) (btn_cancel a)
    (downloading a) (thread a) (dialogs a) (started a) (destroyed a).

Definition insert_log_txt (v : string) (a : App) : App :=
  MkApp (url_var a) (dir_var a) (quality_var a) (prefer_mp3_var a)
    (progress_var a) (status_var a) (log_txt a +:+ v) (btn_download a)
    (btn_cancel a) (downloading a) (thread a) (dialogs a) (started a)
    (destroyed a).

Definition config_btn_download (v : widget_state) (a : App) : App :=
  MkApp (url_var a) (dir_var a) (quality_var a) (prefer_mp3_var a)
    (progress_var a) (status_var a) (log_txt a) v (btn_cancel a)
    (downloading a) (thread a) (dialogs a) (started a) (destroyed a).

Definition config_btn_cancel (v : widget_state) (a : App) : App :=
  MkApp (url_var a) (dir_var a) (quality_var a) (prefer_mp3_var a)
    (progress_var a) (status_var a) (log_txt a) (btn_download a) v
    (downloading a) (thread a) (dialogs a) (started a) (destroyed a).

Definition set_downloading (v : bool) (a : App) : App :=
  MkApp (url_var a) (dir_var a) (quality_var a) (prefer_mp3_var a)
    (progress_var a) (status_var a) (log_txt a) (btn_download a)
    (btn_cancel a) v (thread a) (dialogs a) (started a) (destroyed a).

Definition set_thread (v : option Thread) (a : App) : App :=
  MkApp (url_var a) (dir_var a) (quality_var a) (prefer_mp3_var a)
    (progress_var a) (status_var a) (log_txt a) (btn_download a)
    (btn_cancel a) (downloading a) v (dialogs a) (started a) (destroyed a).

Definition show_dialog (d : dialog) (a : App) : App :=
  MkApp (url_var a) (dir_var a) (quality_var a) (prefer_mp3_var a)
    (progress_var a) (status_var a) (log_txt a) (btn_download a)
    (btn_cancel a) (downloading a) (thread a) (dialogs a ++ [d])
    (started a) (destroyed a).

(** [t.start()] *)
Definition start_thread (t : Thread) (a : App) : App :=
  MkApp (url_var a) (dir_var a) (quality_var a) (prefer_mp3_var a)
    (progress_var a) (status_var a) (log_txt a) (btn_download a)
    (btn_cancel a) (downloading a) (thread a) (dialogs a)
    (started a ++ [t]) (destroyed a).

Definition destroy (a : App) : App :=
  MkApp (url_var a) (dir_var a) (quality_var a) (prefer_mp3_var a)
    (progress_var a) (status_var a) (log_txt a) (btn_download a)
    (btn_cancel a) (downloading a) (thread a) (dialogs a) (started a) true.

(** The window after [App.__init__]; [home_downloads] is
    [str(Path.home() / "Downloads")]. *)
Definition App_init (home_downloads : string) : App :=
  {| url_var := ""; dir_var := home_downloads;
     quality_var := "Best (video+audio)"; prefer_mp3_var := false;
     progress_var := 0; status_var := "Idle"; log_txt := "";
     btn_download := normal; btn_cancel := disabled;
     downloading := false; thread := None;
     dialogs := []; started := []; destroyed := false |}.

(** [App.log] *)
Definition App_log (msg : string) : M App unit :=
  modify (insert_log_txt (msg +:+ String "010" "")) ;;
  modify (set_status_var msg).

(** The [hook] closure of [App.on_download]. *)
Definition App_hook (d : event) : M App unit :=
  if decide (status d = Some "downloading") then
    let pct := hook_pct d in
    modify (set_progress_var pct) ;;
    let spd := speed d in
    let eta := eta d in
    let msg := "Downloading: " +:+ Fmt.fixed 5 1 pct +:+ "%" in
    let msg := msg +:+ speed_part spd in
    let msg := msg +:+ eta_part eta in
    modify (set_status_var msg)
  else if decide (status d = Some "finished") then
    modify (set_progress_var 100) ;;
    App_log "Post-processing… (merging, remuxing, etc.)"
  else mret tt.

(** The [worker] closure of [App.on_download], run by thread [t]. *)
Definition App_worker (t : Thread) : M App unit :=
  try_finally
    (quality_key ← gets quality_var;
     prefer_mp3 ← gets prefer_mp3_var;
     run_download (th_url t) (th_save_dir t) quality_key prefer_mp3
       App_hook App_log)
    (modify (set_downloading false) ;;
     modify (config_btn_download normal) ;;
     modify (config_btn_cancel disabled)).

(** [App.on_download] *)
Definition App_on_download : M App unit :=
  url ← gets (fun self => PyStr.strip (url_var self));
  if negb (PyStr.truthy url) then
    modify (show_dialog (showwarning "Missing URL"
      "Please paste a YouTube video or playlist URL."))
  else
    save_dir ← gets (fun self => expanduser (dir_var self));
    match mkdir save_dir with
    | Some e =>
        modify (show_dialog (showerror "Folder error"
          ("Cannot use folder:" +:+ String "010" "" +:+ exn_str e)))
    | None =>
        modify (set_downloading true) ;;
        modify (config_btn_download disabled) ;;
        modify (config_btn_cancel normal) ;;
        modify (set_progress_var 0) ;;
        App_log "Queued…" ;;
        ident ← gets (fun self => length (started self));
        let t := MkThread ident url save_dir in
        modify (set_thread (Some t)) ;;
        modify (start_thread t)
    end.

(** [App.on_cancel] *)
Definition App_on_cancel : M App unit :=
  downloading ← gets downloading;
  (if downloading : bool then
     modify (show_dialog (showinfo "Cancel" "Stopping after current fragment…"))
   else mret tt) ;;
  modify destroy.

(** ** The command line *)

(** The result of [parser.parse_args()]. *)
Record Namespace : Type := MkArgs {
  args_url : string;
  args_out : string;
  args_quality : string;
  args_prefer_mp3 : bool
}.

(** The [choices] of [--quality]. *)
Definition quality_choices : list string :=
  QUALITY_KEYS ++ ["best"; "1080p"; "720p"; "audio"].

(** The state of the command line is the text written to standard
    output. [print(msg)] and [print(msg, end="")]: *)
Definition print (msg : string) : M string unit :=
  modify (fun out => out +:+ msg +:+ String "010" "").

Definition print_noend (msg : string) : M string unit :=
  modify (fun out => out +:+ msg).

(** The [log] closure of [run_cli]. *)
Definition cli_log (msg : string) : M string unit := print msg.

(** The [hook] closure of [run_cli]. *)
Definition cli_hook (d : event) : M string unit :=
  if decide (status d = Some "downloading") then
    let pct := hook_pct d in
    let spd := speed d in
    let eta := eta d in
    let line := String "013" "" +:+ Fmt.fixed 5 1 pct +:+ "%" in
    let line := line +:+ speed_part spd in
    let line := line +:+ eta_part eta in
    print_noend line
  else if decide (status d = Some "finished") then
    print (String "010" "" +:+ "Post-processing…")
  else mret tt.

(** The alias table of [run_cli]. *)
Definition cli_quality (q : string) : string :=
  if decide (q = "best") then "Best (video+audio)"
  else if decide (q = "1080p") then "1080p (if available)"
  else if decide (q = "720p") then "720p (if available)"
  else if decide (q = "audio") then "Audio only (m4a/mp3)"
  else q.

(** [run_cli], after the arguments are parsed. *)
Definition run_cli (args : Namespace) : M string unit :=
  let quality := cli_quality (args_quality args) in
  let outdir := expanduser (args_out args) in
  match mkdir outdir with
  | Some e => raise e
  | None =>
      run_download (args_url args) outdir quality (args_prefer_mp3 args)
        cli_hook cli_log
  end.

End Host.

(** ** Sample data for the examples below *)

Module Sample.

Definition expanduser (s : string) : Path := s.

Definition joinpath (p : Path) (name : string) : Path := p +:+ "/" +:+ name.

Definition mkdir_ok (p : Path) : option exn := None.

(** A destination below a regular file. *)
Definition mkdir_fails (p : Path) : option exn :=
  Some (OtherException "[Errno 20] Not a directory: '/etc/passwd/out'").

Definition enter_ok (Hook : Type) (opts : ydl_opts Hook) : option exn := None.

(** A progress event without any total size. *)
Definition no_total : event :=
  {| status := Some "downloading"; total_bytes := None;
     total_bytes_estimate := None; downloaded_bytes := Some 500000%Q;
     speed := Some 2097152%Q; eta := Some (127 # 10)%Q |}.

Definition halfway : event :=
  {| status := Some "downloading"; total_bytes := Some 1000000%Q;
     total_bytes_estimate := None; downloaded_bytes := Some 500000%Q;
     speed := None; eta := None |}.

Definition finished : event :=
  {| status := Some "finished"; total_bytes := None;
     total_bytes_estimate := None; downloaded_bytes := None;
     speed := None; eta := None |}.

Definition download_ok (Hook : Type) (opts : ydl_opts Hook)
    (urls : list string) : list event * option exn :=
  ([halfway; finished], None).

Definition download_fails (Hook : Type) (opts : ydl_opts Hook)
    (urls : list string) : list event * option exn :=
  ([halfway], Some (DownloadError "ERROR: Video unavailable")).

(** A window with a URL typed in. *)
Definition ready : App :=
  {| url_var := " https://youtu.be/abc "; dir_var := "/tmp/out";
     quality_var := "720p (if available)"; prefer_mp3_var := false;
     progress_var := 0; status_var := "Idle"; log_txt := "";
     btn_download := normal; btn_cancel := disabled;
     downloading := false; thread := None;
     dialogs := []; started := []; destroyed := false |}.

(** The same window with a job in flight, half done. *)
Definition busy : App :=
  exec (App_hook halfway) (exec (App_on_download expanduser mkdir_ok) ready).

Definition args : Namespace :=
  {| args_url := "https://youtu.be/abc"; args_out := "/etc/passwd/out";
     args_quality := "720p"; args_prefer_mp3 := false |}.

End Sample.

(** A sink that records the messages it is given. *)
Definition sink_log (msg : string) : M (list string) unit :=
  modify (fun msgs => msgs ++ [msg]).

(** A hook that ignores its events. *)
Definition silent_hook {S} (d : event) : M S unit := mret tt.

(** The failure line [run_download] hands to [log] for an exception. *)
Definition failure_message (e : exn) : string :=
  match e with
  | DownloadError m => "❌ Download failed: " +:+ m
  | OtherException m => "❌ Unexpected error: " +:+ m
  end.

(** A message of the failure kind: it starts with the cross mark. *)
Definition is_failure (msg : string) : bool := PyStr.startswith msg "❌".

(** What the window shows of the progress: the bar and the status line. *)
Definition snapshot (a : App) : Q * string := (progress_var a, status_var a).

(** The selector of the table entry ["Best (video+audio)"]. *)
Definition BEST_FORMAT : string := "b[ext=mp4]/bv*[ext=mp4]+ba[ext=m4a]/bv*+ba/best".

(** Every filter of a selector, in order. *)
Definition all_filters (fmt : string) : list string :=
  Selector.parse fmt ≫= (fun t : list Selector.stream => t ≫= Selector.filters).

(** A selector capped at height [h], written [bound] in its filters:
    every height filter is [height<=h], and without them the selector
    is the uncapped one, tier by tier, ending in [best[height<=h]]. *)
Definition capped_at (h : N) (bound : string) (fmt : string) : Prop :=
  Forall (fun n => (n <= h)%N) (Selector.heights fmt) /\
  (List.filter Selector.is_height (all_filters fmt)
    = replicate 4 ("height<=" +:+ bound)) /\
  (Selector.heights fmt = replicate 4 h) /\
  (length (Selector.parse fmt) = 4%nat) /\
  (Selector.erase_height (Selector.parse fmt) = Selector.parse BEST_FORMAT) /\
  (last (Selector.parse fmt)
    = Some [Selector.Stream "best" ["height<=" +:+ bound]]) /\
  (Selector.show (Selector.parse fmt) = fmt).

(** ** The window as a transition system

    The user edits the form and clicks Download; a started worker runs
    to its end. Tk runs the command of a button only while the button
    is not disabled. A worker is taken as one step: what it does before
    its [finally] block touches neither the flag nor the buttons. *)

#[global] Instance Thread_eq_dec : EqDecision Thread.
Proof. solve_decision. Defined.

(** The user fills in the form. *)
Definition set_entries (url dir quality : string) (mp3 : bool) (a : App) : App :=
  MkApp url dir quality mp3 (progress_var a) (status_var a) (log_txt a)
    (btn_download a) (btn_cancel a) (downloading a) (thread a) (dialogs a)
    (started a) (destroyed a).

(** A click on the Download button. *)
Definition click_download (expanduser : string -> string)
    (mkdir : string -> option exn) : M App unit :=
  fun a =>
    match btn_download a with
    | normal => App_on_download expanduser mkdir a
    | disabled => (a, Ok tt)
    end.

(** The window and the workers that have not finished yet. *)
Record System : Type := MkSystem { window : App; running : list Thread }.

Section Steps.

Variable expanduser : string -> string.
Variable joinpath : string -> string -> string.
Variable mkdir : string -> option exn.
Variable YoutubeDL_enter : forall Hook, ydl_opts Hook -> option exn.
Variable YoutubeDL_download :
  forall Hook, ydl_opts Hook -> list string -> list event * option exn.

Inductive step : System -> System -> Prop :=
  | step_edit (sys : System) (url dir quality : string) (mp3 : bool) :
      step sys (MkSystem (set_entries url dir quality mp3 (window sys))
                  (running sys))
  | step_click (sys : System) (a' : App) :
      a' = exec (click_download expanduser mkdir) (window sys) ->
      step sys (MkSystem a'
                  (running sys
                     ++ drop (length (started (window sys))) (started a')))
  | step_finish (sys : System) (t : Thread) :
      t ∈ running sys ->
      step sys (MkSystem
                  (exec (App_worker joinpath YoutubeDL_enter
                           YoutubeDL_download t) (window sys))
                  (List.remove Thread_eq_dec t (running sys))).

Inductive reachable (home_downloads : string) : System -> Prop :=
  | reachable_init : reachable home_downloads
                       (MkSystem (App_init home_downloads) [])
  | reachable_step (sys sys' : System) :
      reachable home_downloads sys -> step sys sys' ->
      reachable home_downloads sys'.

End Steps.

(** Either no worker runs, the flag is down and Download is enabled, or
    one worker runs, the flag is up and Download is disabled. *)
Definition single_job (sys : System) : Prop :=
  (running sys = [] /\ downloading (window sys) = false /\
   btn_download (window sys) = normal) \/
  (exists t, running sys = [t] /\ downloading (window sys) = true /\
   btn_download (window sys) = disabled).

(** ** The folder chooser and the entry point *)

Definition set_dir_var (v : string) (a : App) : App :=
  MkApp (url_var a) v (quality_var a) (prefer_mp3_var a) (progress_var a)
    (status_var a) (log_txt a) (btn_download a) (btn_cancel a)
    (downloading a) (thread a) (dialogs a) (started a) (destroyed a).

(** [App.choose_dir]. [askdirectory initialdir] is the answer of the
    folder dialog opened at [initialdir] (empty when it is cancelled);
    [home] is [str(Path.home())]. *)
Definition App_choose_dir (askdirectory : string -> string) (home : string)
    : M App unit :=
  path ← gets (fun self =>
    askdirectory (if PyStr.truthy (dir_var self) then dir_var self else home));
  if PyStr.truthy path then modify (set_dir_var path) else mret tt.

(** What the [__main__] block runs. *)
Inductive mode : Type := GUI | CLI.

(** The [__main__] block on [sys.argv]. *)
Definition main_mode (argv : list string) : mode :=
  if (1 <? length argv)%nat then
    if existsb (fun s => PyStr.startswith s "--") (drop 1 argv) then CLI
    else GUI
  else GUI.

(** The part of the window that controls jobs: the form, the buttons,
    the flag, the threads and the message boxes. *)
Definition job_control (a : App)
    : string * string * string * bool * widget_state * widget_state
      * bool * option Thread * list dialog * list Thread * bool :=
  (url_var a, dir_var a, quality_var a, prefer_mp3_var a, btn_download a,
   btn_cancel a, downloading a, thread a, dialogs a, started a, destroyed a).

(** The bar after the progress events [evs], starting from [p]: each
    "downloading" event sets it to its percentage, each "finished"
    event to 100, any other event leaves it. *)
Definition bar_after (evs : list event) (p : Q) : Q :=
  fold_left
    (fun p d =>
       if decide (status d = Some "downloading") then hook_pct d
       else if decide (status d = Some "finished") then 100%Q
       else p)
    evs p.

(** The line [run_download] ends with: the success line or the failure
    line of the exception raised on entry or by the download. *)
Definition final_line (entered downloaded : option exn) : string :=
  match entered, downloaded with
  | Some e, _ => failure_message e
  | None, Some e => failure_message e
  | None, None => "✅ Done."
  end.

(** * Properties *)

(** ** String helpers *)

Lemma split_nonempty (sep : ascii) (s : string) : PyStr.split sep s ≠ [].
Proof.
  induction s as [|c s IH]; simpl; [discriminate|].
  destruct (Ascii.eqb c sep); [discriminate|].
  destruct (PyStr.split sep s); [contradiction | discriminate].
Qed.

Lemma startswith_refl (s : string) : PyStr.startswith s s = true.
Proof.
  induction s as [|c s IH]; simpl; [reflexivity|].
  now rewrite Ascii.eqb_refl.
Qed.

Lemma startswith_app (p s : string) : PyStr.startswith (p +:+ s) p = true.
Proof.
  induction p as [|c p IH]; simpl; [now destruct s|].
  now rewrite Ascii.eqb_refl.
Qed.

Lemma contains_cons (sub : string) (c : ascii) (s : string) :
  PyStr.contains sub (String c s)
  = if PyStr.startswith (String c s) sub then true else PyStr.contains sub s.
Proof. reflexivity. Qed.

Lemma contains_prefix (sub s : string) :
  PyStr.startswith s sub = true -> PyStr.contains sub s = true.
Proof.
  intros H. destruct s as [|c s].
  - unfold PyStr.contains. now rewrite H.
  - now rewrite contains_cons, H.
Qed.

Lemma contains_app (sub pre post : string) :
  PyStr.contains sub (pre +:+ sub +:+ post) = true.
Proof.
  induction pre as [|c pre IH].
  - apply contains_prefix. exact (startswith_app sub post).
  - change (String c pre +:+ sub +:+ post) with (String c (pre +:+ sub +:+ post)).
    rewrite contains_cons, IH. now destruct (PyStr.startswith _ sub).
Qed.

(** ** The quality table *)

Lemma QUALITY_MAP_best :
  QUALITY_MAP !! "Best (video+audio)"
  = Some "b[ext=mp4]/bv*[ext=mp4]+ba[ext=m4a]/bv*+ba/best".
Proof. reflexivity. Qed.

(** The subscript [QUALITY_MAP["Best (video+audio)"]] never raises. *)
Lemma quality_format_total (quality_key : string) :
  quality_format quality_key
  = Some (default "b[ext=mp4]/bv*[ext=mp4]+ba[ext=m4a]/bv*+ba/best"
            (QUALITY_MAP !! quality_key)).
Proof. unfold quality_format. now rewrite QUALITY_MAP_best. Qed.

Lemma quality_format_missing (quality_key : string) :
  QUALITY_MAP !! quality_key = None ->
  quality_format quality_key
  = Some "b[ext=mp4]/bv*[ext=mp4]+ba[ext=m4a]/bv*+ba/best".
Proof. intros H. rewrite quality_format_total. now rewrite H. Qed.

Lemma QUALITY_KEYS_cases (k : string) :
  k ∈ QUALITY_KEYS ->
  k = "Best (video+audio)" \/ k = "1080p (if available)" \/
  k = "720p (if available)" \/ k = "Audio only (m4a/mp3)".
Proof.
  unfold QUALITY_KEYS; simpl. rewrite !elem_of_cons, elem_of_nil. tauto.
Qed.

(** ** Fallback tiers of the table entries *)

(** C7. The selector of "Best (video+audio)" is four fallback tiers, in
    this order: the best progressive mp4; the best mp4 video merged
    with the best m4a audio; the best video merged with the best audio
    of any kind; the best single stream. *)
Theorem best_four_tiers_in_order :
  exists fmt,
    (quality_format "Best (video+audio)" = Some fmt) /\
    (Selector.tiers fmt
      = ["b[ext=mp4]"; "bv*[ext=mp4]+ba[ext=m4a]"; "bv*+ba"; "best"]) /\
    (Selector.parse fmt
      = [ [Selector.Stream "b" ["ext=mp4"]];
          [Selector.Stream "bv*" ["ext=mp4"]; Selector.Stream "ba" ["ext=m4a"]];
          [Selector.Stream "bv*" []; Selector.Stream "ba" []];
          [Selector.Stream "best" []] ]) /\
    (Selector.show (Selector.parse fmt) = fmt).
Proof.
  exists BEST_FORMAT. repeat split; reflexivity.
Qed.

(** C3, as stated, fails: the selector of "Audio only (m4a/mp3)" is not
    a single tier. *)
Lemma audio_only_not_single_tier :
  ~ (exists fmt,
       (quality_format "Audio only (m4a/mp3)" = Some fmt) /\
       (length (Selector.tiers fmt) = 1%nat)).
Proof.
  intros (fmt & Hfmt & Hlen).
  rewrite quality_format_total in Hfmt. injection Hfmt as <-.
  discriminate Hlen.
Qed.

(** C3, amended. The selector of "Audio only (m4a/mp3)" is two fallback
    tiers: the best audio-only stream, then the best single stream. *)
Theorem audio_only_two_tiers :
  exists fmt,
    (quality_format "Audio only (m4a/mp3)" = Some fmt) /\
    (Selector.tiers fmt = ["bestaudio"; "best"]) /\
    (Selector.parse fmt
      = [ [Selector.Stream "bestaudio" []]; [Selector.Stream "best" []] ]) /\
    (length (Selector.tiers fmt) = 2%nat).
Proof.
  exists "bestaudio/best". repeat split; reflexivity.
Qed.

Lemma erase_height_length (ts : list (list Selector.stream)) :
  length (Selector.erase_height ts) = length ts.
Proof. unfold Selector.erase_height. apply length_fmap. Qed.

Lemma erase_height_tier_length (ts : list (list Selector.stream)) :
  length <$> Selector.erase_height ts = length <$> ts.
Proof.
  unfold Selector.erase_height. rewrite <- list_fmap_compose.
  apply list_fmap_ext. intros i t _. simpl. apply length_fmap.
Qed.

(** Settles [capped_at] on a closed selector: the bounds are computed
    and compared one by one, the other parts are evaluated. *)
Ltac capped_by_evaluation :=
  unfold capped_at;
  split;
  [ match goal with
    | |- Forall _ ?l =>
        let v := eval vm_compute in l in
        change l with v; repeat constructor; lia
    end
  | repeat split; vm_compute; reflexivity ].

(** C6. Every height filter of the "720p (if available)" selector
    bounds the height by 720, every one of "1080p (if available)" by
    1080; each selector has the four tiers of "Best (video+audio)" once
    the height filters are dropped, and ends in the best stream at or
    below the cap. *)
Theorem capped_selectors_bounded :
  (exists fmt, quality_format "720p (if available)" = Some fmt /\
     capped_at 720 "720" fmt) /\
  (exists fmt, quality_format "1080p (if available)" = Some fmt /\
     capped_at 1080 "1080" fmt).
Proof.
  split.
  - exists "b[height<=720][ext=mp4]/bv*[height<=720][ext=mp4]+ba[ext=m4a]/bv*[height<=720]+ba/best[height<=720]".
    split; [reflexivity|]. capped_by_evaluation.
  - exists "b[height<=1080][ext=mp4]/bv*[height<=1080][ext=mp4]+ba[ext=m4a]/bv*[height<=1080]+ba/best[height<=1080]".
    split; [reflexivity|]. capped_by_evaluation.
Qed.

(** ** Post-processors chosen by the option builder *)

Lemma build_ydl_opts_ok {Hook} (joinpath : string -> string -> string)
    (save_dir quality_key : string) (flag : bool) (hook : option Hook) :
  exists opts,
    build_ydl_opts joinpath save_dir quality_key flag hook = Ok opts /\
    format opts = default BEST_FORMAT (QUALITY_MAP !! quality_key) /\
    postprocessors opts = build_postprocessors quality_key flag /\
    outtmpl opts = joinpath save_dir DEFAULT_TEMPLATE /\
    progress_hooks opts = (fun h => [h]) <$> hook.
Proof.
  unfold build_ydl_opts. rewrite quality_format_total.
  eexists. split; [reflexivity|]. simpl. repeat split.
Qed.

(** C4. For each of the four quality labels the options carry exactly
    one post-processor: for "Audio only (m4a/mp3)" it is
    FFmpegExtractAudio with quality "192" and codec mp3 when the flag
    is set, m4a when it is not; for the three other labels it is
    FFmpegVideoRemuxer to mp4 whatever the flag. The flag
    [run_download] passes is prefer_mp3 for the audio label. *)
Theorem postprocessor_by_quality {Hook} (joinpath : string -> string -> string)
    (save_dir quality_key : string) (flag prefer_mp3 : bool)
    (hook : option Hook) :
  quality_key ∈ QUALITY_KEYS ->
  exists opts,
    build_ydl_opts joinpath save_dir quality_key flag hook = Ok opts /\
    postprocessors opts
      = [ if decide (quality_key = "Audio only (m4a/mp3)")
          then FFmpegExtractAudio (if flag then "mp3" else "m4a") "192"
          else FFmpegVideoRemuxer "mp4" ] /\
    PyStr.contains "Audio only" quality_key && prefer_mp3
      = if decide (quality_key = "Audio only (m4a/mp3)")
        then prefer_mp3 else false.
Proof.
  intros Hkey.
  destruct (build_ydl_opts_ok joinpath save_dir quality_key flag hook)
    as (opts & Hopts & _ & Hpp & _).
  exists opts. split; [exact Hopts|]. rewrite Hpp.
  apply QUALITY_KEYS_cases in Hkey.
  destruct Hkey as [-> | [-> | [-> | ->]]]; split; reflexivity.
Qed.

Lemma postprocessor_by_quality_witness :
  "Audio only (m4a/mp3)" ∈ QUALITY_KEYS /\
  exists opts : ydl_opts unit,
    build_ydl_opts Sample.joinpath "/tmp/out" "Audio only (m4a/mp3)" true None
      = Ok opts /\
    postprocessors opts
      = [ if decide ("Audio only (m4a/mp3)" = "Audio only (m4a/mp3)")
          then FFmpegExtractAudio (if true then "mp3" else "m4a") "192"
          else FFmpegVideoRemuxer "mp4" ] /\
    PyStr.contains "Audio only" "Audio only (m4a/mp3)" && true
      = if decide ("Audio only (m4a/mp3)" = "Audio only (m4a/mp3)")
        then true else false.
Proof.
  assert (H : "Audio only (m4a/mp3)" ∈ QUALITY_KEYS)
    by (unfold QUALITY_KEYS; simpl; rewrite !elem_of_cons; tauto).
  split; [exact H|].
  exact (postprocessor_by_quality Sample.joinpath "/tmp/out"
           "Audio only (m4a/mp3)" true true None H).
Defined.

(** C10, as stated, fails: a label outside the table may contain
    "Audio only", and then the post-processor is not the remuxer. *)
Lemma unknown_key_not_always_remuxed :
  ~ (forall quality_key : string,
       QUALITY_MAP !! quality_key = None ->
       forall flag : bool, exists opts : ydl_opts unit,
         build_ydl_opts Sample.joinpath "/tmp/out" quality_key flag None
           = Ok opts /\
         format opts = BEST_FORMAT /\
         postprocessors opts = [FFmpegVideoRemuxer "mp4"]).
Proof.
  intros H.
  destruct (H "Audio only" eq_refl true) as (opts & Hopts & _ & Hpp).
  vm_compute in Hopts. injection Hopts as <-. discriminate Hpp.
Qed.

(** C10, amended. The option builder never fails: for every label
    outside the table the selector is the one of "Best (video+audio)";
    the post-processor is FFmpegVideoRemuxer to mp4 when the label does
    not contain "Audio only", FFmpegExtractAudio when it does. *)
Theorem unknown_key_falls_back_to_best {Hook}
    (joinpath : string -> string -> string)
    (save_dir quality_key : string) (flag : bool) (hook : option Hook) :
  QUALITY_MAP !! quality_key = None ->
  exists opts,
    build_ydl_opts joinpath save_dir quality_key flag hook = Ok opts /\
    format opts = BEST_FORMAT /\
    QUALITY_MAP !! "Best (video+audio)" = Some (format opts) /\
    postprocessors opts
      = if PyStr.contains "Audio only" quality_key
        then [FFmpegExtractAudio (if flag then "mp3" else "m4a") "192"]
        else [FFmpegVideoRemuxer "mp4"].
Proof.
  intros Hmiss.
  destruct (build_ydl_opts_ok joinpath save_dir quality_key flag hook)
    as (opts & Hopts & Hfmt & Hpp & _).
  rewrite Hmiss in Hfmt. simpl in Hfmt.
  exists opts. rewrite Hfmt, Hpp. repeat split; assumption.
Qed.

Lemma unknown_key_falls_back_to_best_witness :
  QUALITY_MAP !! "4k" = None /\
  exists opts : ydl_opts unit,
    build_ydl_opts Sample.joinpath "/tmp/out" "4k" false None = Ok opts /\
    format opts = BEST_FORMAT /\
    QUALITY_MAP !! "Best (video+audio)" = Some (format opts) /\
    postprocessors opts
      = if PyStr.contains "Audio only" "4k"
        then [FFmpegExtractAudio (if false then "mp3" else "m4a") "192"]
        else [FFmpegVideoRemuxer "mp4"].
Proof.
  split; [reflexivity|].
  exact (unknown_key_falls_back_to_best Sample.joinpath "/tmp/out" "4k"
           false None eq_refl).
Defined.

(** ** The download runner *)

Lemma is_failure_failure_message (e : exn) :
  is_failure (failure_message e) = true.
Proof. destruct e; reflexivity. Qed.

Lemma call_hooks_silent {S} (d : event) (s : S) :
  call_hooks [silent_hook] d s = (s, Ok tt).
Proof. reflexivity. Qed.

Lemma emit_silent {S} (evs : list event) (s : S) :
  emit [silent_hook] evs s = (s, Ok tt).
Proof.
  induction evs as [|d evs IH]; [reflexivity|].
  cbn [emit]. unfold mbind, M_bind. rewrite call_hooks_silent. exact IH.
Qed.

Section RunDownloadFacts.

Variable joinpath : string -> string -> string.
Variable YoutubeDL_enter : forall Hook, ydl_opts Hook -> option exn.
Variable YoutubeDL_download :
  forall Hook, ydl_opts Hook -> list string -> list event * option exn.

Context {S : Type}.
Variable hook : event -> M S unit.
Variable log : string -> M S unit.
Hypothesis log_returns : forall msg s, snd (log msg s) = Ok tt.

Lemma log_ok (msg : string) (s : S) : log msg s = (fst (log msg s), Ok tt).
Proof.
  specialize (log_returns msg s). destruct (log msg s) as [s' r].
  simpl in *. now subst.
Qed.

(** Both handlers of [run_download] end in a call of [log]. *)
Lemma handler_returns (e : exn) (s : S) :
  snd (match e with
       | DownloadError _ => log ("❌ Download failed: " +:+ exn_str e)
       | OtherException _ => log ("❌ Unexpected error: " +:+ exn_str e)
       end s) = Ok tt.
Proof. destruct e; apply log_returns. Qed.

Lemma run_download_returns (url save_dir quality_key : string)
    (prefer_mp3 : bool) (s : S) :
  snd (run_download joinpath YoutubeDL_enter YoutubeDL_download
         url save_dir quality_key prefer_mp3 hook log s) = Ok tt.
Proof.
  unfold run_download.
  destruct (build_ydl_opts_ok joinpath save_dir quality_key
              (PyStr.contains "Audio only" quality_key && prefer_mp3)
              (Some hook)) as (opts & Hopts & _).
  unfold mbind at 1. unfold M_bind, lift. rewrite Hopts.
  unfold try_except, with_YoutubeDL.
  destruct (YoutubeDL_enter _ opts) as [e|].
  - unfold raise. apply handler_returns.
  - unfold mbind, M_bind. rewrite log_ok.
    destruct (ydl_download _ _ _ _) as [s2 [[]|e]].
    + rewrite log_ok. reflexivity.
    + apply handler_returns.
Qed.

End RunDownloadFacts.

(** What a recording sink receives from [run_download]. *)
Lemma run_download_sink_trace (joinpath : string -> string -> string)
    (YoutubeDL_enter : forall Hook, ydl_opts Hook -> option exn)
    (YoutubeDL_download :
       forall Hook, ydl_opts Hook -> list string -> list event * option exn)
    (url save_dir quality_key : string) (prefer_mp3 : bool)
    (before : list string) :
  exists opts,
    build_ydl_opts joinpath save_dir quality_key
      (PyStr.contains "Audio only" quality_key && prefer_mp3)
      (Some (@silent_hook (list string))) = Ok opts /\
    run_download joinpath YoutubeDL_enter YoutubeDL_download
      url save_dir quality_key prefer_mp3 silent_hook sink_log before
    = (before ++
         match YoutubeDL_enter _ opts with
         | Some e => [failure_message e]
         | None =>
             ("Starting download to: " +:+ save_dir) ::
             match snd (YoutubeDL_download _ opts [url]) with
             | Some e => [failure_message e]
             | None => ["✅ Done."]
             end
         end, Ok tt).
Proof.
  destruct (build_ydl_opts_ok joinpath save_dir quality_key
              (PyStr.contains "Audio only" quality_key && prefer_mp3)
              (Some (@silent_hook (list string))))
    as (opts & Hopts & _ & _ & _ & Hhooks).
  exists opts. split; [exact Hopts|].
  unfold run_download. unfold mbind at 1. unfold M_bind, lift. rewrite Hopts.
  unfold try_except, with_YoutubeDL.
  destruct (YoutubeDL_enter _ opts) as [e|].
  - destruct e; reflexivity.
  - unfold ydl_download. rewrite Hhooks.
    destruct (YoutubeDL_download _ opts [url]) as [evs fin].
    cbn [fmap option_fmap option_map default snd].
    unfold mbind, M_bind. cbn [sink_log modify id].
    rewrite emit_silent.
    destruct fin as [e|]; [destruct e|];
      unfold raise, sink_log, modify; cbn [mret M_ret failure_message exn_str];
      rewrite <- ?app_assoc; reflexivity.
Qed.

(** C5. Whatever yt-dlp does (it returns, it raises DownloadError, or
    it raises another exception, on entry or while downloading),
    [run_download] returns without raising, provided [log] itself
    returns; and a recording sink is handed one failure line for a
    failed run, none for a successful one. *)
Theorem run_download_funnels_failures {S}
    (joinpath : string -> string -> string)
    (YoutubeDL_enter : forall Hook, ydl_opts Hook -> option exn)
    (YoutubeDL_download :
       forall Hook, ydl_opts Hook -> list string -> list event * option exn)
    (url save_dir quality_key : string) (prefer_mp3 : bool)
    (hook : event -> M S unit) (log : string -> M S unit) (s : S) :
  (forall msg s', snd (log msg s') = Ok tt) ->
  snd (run_download joinpath YoutubeDL_enter YoutubeDL_download
         url save_dir quality_key prefer_mp3 hook log s) = Ok tt /\
  exists (opts : ydl_opts (event -> M (list string) unit)) (msgs : list string),
    run_download joinpath YoutubeDL_enter YoutubeDL_download
      url save_dir quality_key prefer_mp3 silent_hook sink_log []
    = (msgs, Ok tt) /\
    build_ydl_opts joinpath save_dir quality_key
      (PyStr.contains "Audio only" quality_key && prefer_mp3)
      (Some (@silent_hook (list string))) = Ok opts /\
    List.filter is_failure msgs
    = match YoutubeDL_enter _ opts, snd (YoutubeDL_download _ opts [url]) with
      | Some e, _ => [failure_message e]
      | None, Some e => [failure_message e]
      | None, None => []
      end.
Proof.
  intros Hlog. split.
  - now apply run_download_returns.
  - destruct (run_download_sink_trace joinpath YoutubeDL_enter
                YoutubeDL_download url save_dir quality_key prefer_mp3 [])
      as (opts & Hopts & Hrun).
    exists opts. eexists. split; [exact Hrun|]. split; [exact Hopts|].
    cbn [app].
    destruct (YoutubeDL_enter _ opts) as [e|].
    + cbn [List.filter]. now rewrite is_failure_failure_message.
    + destruct (snd (YoutubeDL_download _ opts [url])) as [e|].
      * cbn [List.filter]. rewrite is_failure_failure_message.
        now destruct save_dir.
      * now destruct save_dir.
Qed.

Lemma run_download_funnels_failures_witness :
  (forall msg s', snd (App_log msg s') = Ok tt) /\
  snd (run_download Sample.joinpath Sample.enter_ok Sample.download_fails
         "https://youtu.be/abc" "/tmp/out" "720p (if available)" false
         App_hook App_log Sample.busy) = Ok tt /\
  exists (opts : ydl_opts (event -> M (list string) unit)) (msgs : list string),
    run_download Sample.joinpath Sample.enter_ok Sample.download_fails
      "https://youtu.be/abc" "/tmp/out" "720p (if available)" false
      silent_hook sink_log []
    = (msgs, Ok tt) /\
    build_ydl_opts Sample.joinpath "/tmp/out" "720p (if available)"
      (PyStr.contains "Audio only" "720p (if available)" && false)
      (Some (@silent_hook (list string))) = Ok opts /\
    List.filter is_failure msgs
    = match Sample.enter_ok _ opts, snd (Sample.download_fails _ opts ["https://youtu.be/abc"]) with
      | Some e, _ => [failure_message e]
      | None, Some e => [failure_message e]
      | None, None => []
      end.
Proof.
  assert (H : forall msg s', snd (App_log msg s') = Ok tt)
    by (intros msg s'; reflexivity).
  split; [exact H|].
  exact (run_download_funnels_failures Sample.joinpath Sample.enter_ok
           Sample.download_fails "https://youtu.be/abc" "/tmp/out"
           "720p (if available)" false App_hook App_log Sample.busy H).
Defined.

(** ** The Download button *)

Section OnDownloadFacts.

Variable expanduser : string -> string.
Variable mkdir : string -> option exn.

(** A blank URL: the warning, nothing else. *)
Lemma App_on_download_blank (a : App) :
  PyStr.truthy (PyStr.strip (url_var a)) = false ->
  App_on_download expanduser mkdir a
  = (show_dialog (showwarning "Missing URL"
       "Please paste a YouTube video or playlist URL.") a, Ok tt).
Proof.
  intros Hurl. unfold App_on_download, mbind, M_bind, gets.
  now rewrite Hurl.
Qed.

(** A folder that cannot be made: the error box, nothing else. *)
Lemma App_on_download_folder_error (a : App) (e : exn) :
  PyStr.truthy (PyStr.strip (url_var a)) = true ->
  mkdir (expanduser (dir_var a)) = Some e ->
  App_on_download expanduser mkdir a
  = (show_dialog (showerror "Folder error"
       ("Cannot use folder:" +:+ String "010" "" +:+ exn_str e)) a, Ok tt).
Proof.
  intros Hurl Hdir. unfold App_on_download, mbind, M_bind, gets.
  rewrite Hurl. cbn [negb]. now rewrite Hdir.
Qed.

(** Otherwise the job is accepted, whatever the window was doing. *)
Lemma App_on_download_accepted (a : App) :
  PyStr.truthy (PyStr.strip (url_var a)) = true ->
  mkdir (expanduser (dir_var a)) = None ->
  let t := MkThread (length (started a)) (PyStr.strip (url_var a))
             (expanduser (dir_var a)) in
  App_on_download expanduser mkdir a
  = ({| url_var := url_var a; dir_var := dir_var a;
        quality_var := quality_var a; prefer_mp3_var := prefer_mp3_var a;
        progress_var := 0; status_var := "Queued…";
        log_txt := log_txt a +:+ "Queued…" +:+ String "010" "";
        btn_download := disabled; btn_cancel := normal;
        downloading := true; thread := Some t;
        dialogs := dialogs a; started := started a ++ [t];
        destroyed := destroyed a |}, Ok tt).
Proof.
  intros Hurl Hdir t. unfold App_on_download, mbind, M_bind, gets.
  rewrite Hurl. cbn [negb]. now rewrite Hdir.
Qed.

End OnDownloadFacts.

(** C8. When the destination folder cannot be created, the Download
    handler returns at once: it shows one message box (the folder
    error, or the missing-URL warning when the URL is blank as well),
    starts no thread and leaves the job state as it was; the command
    line raises the error of [mkdir] before [run_download] is called,
    so nothing is printed and yt-dlp is not consulted. *)
Theorem unusable_folder_starts_no_worker
    (expanduser : string -> string) (joinpath : string -> string -> string)
    (mkdir : string -> option exn)
    (YoutubeDL_enter : forall Hook, ydl_opts Hook -> option exn)
    (YoutubeDL_download :
       forall Hook, ydl_opts Hook -> list string -> list event * option exn)
    (a : App) (args : Namespace) (out : string) (e1 e2 : exn) :
  mkdir (expanduser (dir_var a)) = Some e1 ->
  mkdir (expanduser (args_out args)) = Some e2 ->
  (exists d : dialog,
     App_on_download expanduser mkdir a = (show_dialog d a, Ok tt) /\
     d = (if PyStr.truthy (PyStr.strip (url_var a))
          then showerror "Folder error"
                 ("Cannot use folder:" +:+ String "010" "" +:+ exn_str e1)
          else showwarning "Missing URL"
                 "Please paste a YouTube video or playlist URL.") /\
     started (show_dialog d a) = started a /\
     thread (show_dialog d a) = thread a /\
     downloading (show_dialog d a) = downloading a /\
     snapshot (show_dialog d a) = snapshot a /\
     btn_download (show_dialog d a) = btn_download a) /\
  run_cli expanduser joinpath mkdir YoutubeDL_enter YoutubeDL_download args out
  = (out, Raise e2).
Proof.
  intros Hgui Hcli. split.
  - eexists. split; [|repeat split].
    destruct (PyStr.truthy (PyStr.strip (url_var a))) eqn:Hurl.
    + now apply App_on_download_folder_error.
    + now apply App_on_download_blank.
  - unfold run_cli. now rewrite Hcli.
Qed.

Lemma unusable_folder_starts_no_worker_witness :
  Sample.mkdir_fails (Sample.expanduser (dir_var Sample.ready))
    = Some (OtherException "[Errno 20] Not a directory: '/etc/passwd/out'") /\
  started (exec (App_on_download Sample.expanduser Sample.mkdir_fails)
             Sample.ready) = [] /\
  run_cli Sample.expanduser Sample.joinpath Sample.mkdir_fails
    Sample.enter_ok Sample.download_ok Sample.args ""
  = ("", Raise (OtherException "[Errno 20] Not a directory: '/etc/passwd/out'")).
Proof.
  destruct (unusable_folder_starts_no_worker Sample.expanduser Sample.joinpath
              Sample.mkdir_fails Sample.enter_ok Sample.download_ok
              Sample.ready Sample.args "" _ _ eq_refl eq_refl)
    as [(d & Hrun & _ & Hstarted & _) Hcli].
  split; [reflexivity|]. split; [|exact Hcli].
  unfold exec. rewrite Hrun. exact Hstarted.
Defined.

(** ** The progress hooks *)

Lemma hook_pct_no_total (d : event) :
  total_bytes d = None -> total_bytes_estimate d = None -> hook_pct d = 0%Q.
Proof.
  intros Ht He. unfold hook_pct, hook_total. now rewrite Ht, He.
Qed.

(** C9. A "finished" event handled twice gives the same picture twice:
    the bar at 100 and the post-processing status line in the window,
    the same line printed by the command line; the second event
    changes neither bar nor status line. *)
Theorem finished_event_idempotent (d : event) (a : App) (out : string) :
  status d = Some "finished" ->
  let a1 := exec (App_hook d) a in
  let a2 := exec (App_hook d) a1 in
  snapshot a1 = (100%Q, "Post-processing… (merging, remuxing, etc.)") /\
  snapshot a2 = snapshot a1 /\
  returns (App_hook d) a = true /\ returns (App_hook d) a1 = true /\
  exec (cli_hook d) out
    = out +:+ (String "010" "" +:+ "Post-processing…") +:+ String "010" "" /\
  exec (cli_hook d) (exec (cli_hook d) out)
    = (out +:+ (String "010" "" +:+ "Post-processing…") +:+ String "010" "")
        +:+ (String "010" "" +:+ "Post-processing…") +:+ String "010" "".
Proof.
  intros Hst a1 a2. subst a1 a2.
  unfold exec, returns, App_hook, cli_hook. rewrite Hst.
  repeat split.
Qed.

Lemma finished_event_idempotent_witness :
  status Sample.finished = Some "finished" /\
  snapshot (exec (App_hook Sample.finished)
              (exec (App_hook Sample.finished) Sample.busy))
  = snapshot (exec (App_hook Sample.finished) Sample.busy).
Proof.
  split; [reflexivity|].
  exact (proj1 (proj2 (finished_event_idempotent Sample.finished Sample.busy
                         "" eq_refl))).
Defined.

(** The log widget, unlike bar and status line, gets one more line per
    "finished" event. *)
Lemma finished_event_logged_each_time (d : event) (a : App) :
  status d = Some "finished" ->
  log_txt (exec (App_hook d) a)
  = log_txt a +:+ "Post-processing… (merging, remuxing, etc.)"
      +:+ String "010" "".
Proof.
  intros Hst. unfold exec, App_hook. now rewrite Hst.
Qed.

(** C2, as stated, fails: with no total size the hooks report 0 percent,
    and the rate and the remaining time are reformatted, not copied. *)
Lemma unknown_total_reported_as_zero :
  ~ (progress_var (exec (App_hook Sample.no_total) Sample.ready) <> 0%Q) /\
  hook_pct Sample.no_total = 0%Q /\
  snapshot (exec (App_hook Sample.no_total) Sample.ready)
    = (0%Q, "Downloading:   0.0% | 2.00 MB/s | ETA 12s") /\
  exec (cli_hook Sample.no_total) ""
    = String "013" "" +:+ "  0.0% | 2.00 MB/s | ETA 12s".
Proof.
  split; [intros H; apply H|]; repeat split; vm_compute; reflexivity.
Qed.

(** C2, amended. For a "downloading" event without total size and
    without estimate, whatever the downloaded bytes, both hooks return
    without raising and report 0 percent: the bar is set to 0 and the
    text reads 0.0%; the rate is appended in MB/s with two decimals
    when present and not zero, the remaining time in whole seconds when
    present and not zero, and each is left out otherwise. *)
Theorem unknown_total_gives_zero_percent (d : event) (a : App) (out : string) :
  status d = Some "downloading" ->
  total_bytes d = None ->
  total_bytes_estimate d = None ->
  let rate := match speed d with
              | Some v => if Q_truthy v
                          then " | " +:+ Fmt.fixed 0 2 (v / 1024 / 1024) +:+ " MB/s"
                          else ""
              | None => ""
              end in
  let left := match eta d with
              | Some v => if Q_truthy v
                          then " | ETA " +:+ Fmt.str_int (Fmt.int v) +:+ "s"
                          else ""
              | None => ""
              end in
  App_hook d a
    = (set_status_var (("Downloading:   0.0%" +:+ rate) +:+ left)
         (set_progress_var 0 a), Ok tt) /\
  cli_hook d out
    = (out +:+ ((String "013" "" +:+ "  0.0%") +:+ rate) +:+ left, Ok tt).
Proof.
  intros Hst Ht He rate left.
  unfold App_hook, cli_hook. rewrite Hst.
  rewrite (hook_pct_no_total d Ht He).
  split; reflexivity.
Qed.

Lemma unknown_total_gives_zero_percent_witness :
  status Sample.no_total = Some "downloading" /\
  total_bytes Sample.no_total = None /\
  total_bytes_estimate Sample.no_total = None /\
  fst (App_hook Sample.no_total Sample.ready)
    = set_status_var "Downloading:   0.0% | 2.00 MB/s | ETA 12s"
        (set_progress_var 0 Sample.ready).
Proof.
  split; [reflexivity|]. split; [reflexivity|]. split; [reflexivity|].
  exact (f_equal fst
           (proj1 (unknown_total_gives_zero_percent Sample.no_total
                     Sample.ready "" eq_refl eq_refl eq_refl))).
Defined.

(** ** Overlapping submissions *)

(** C1, as stated, fails: the handler has no admission check. Called
    while a job is in flight it returns as for a first job, resets the
    bar of the running job, replaces the recorded thread and starts a
    second worker. *)
Lemma second_submission_is_accepted :
  let after := exec (App_on_download Sample.expanduser Sample.mkdir_ok)
                 Sample.busy in
  downloading Sample.busy = true /\
  (progress_var Sample.busy == 50)%Q /\
  thread Sample.busy = Some (MkThread 0 "https://youtu.be/abc" "/tmp/out") /\
  App_on_download Sample.expanduser Sample.mkdir_ok Sample.busy
    = (after, Ok tt) /\
  progress_var after = 0%Q /\
  thread after = Some (MkThread 1 "https://youtu.be/abc" "/tmp/out") /\
  started after = [ MkThread 0 "https://youtu.be/abc" "/tmp/out";
                    MkThread 1 "https://youtu.be/abc" "/tmp/out" ] /\
  ~ (snapshot after = snapshot Sample.busy /\
     thread after = thread Sample.busy /\
     started after = started Sample.busy).
Proof.
  cbv zeta. repeat split; try (vm_compute; reflexivity).
  intros (_ & Hthread & _). vm_compute in Hthread. discriminate Hthread.
Qed.

(** C1, amended. A submission made while a job is in flight, with a
    non-blank URL and a usable folder, is accepted like a first one:
    the handler returns normally, keeps the flag up, sets the bar to 0
    and the status to the queued line, records and starts a new worker
    thread next to the running one, and leaves Download disabled and
    Cancel enabled. *)
Theorem busy_submission_starts_second_worker
    (expanduser : string -> string) (mkdir : string -> option exn) (a : App) :
  downloading a = true ->
  PyStr.truthy (PyStr.strip (url_var a)) = true ->
  mkdir (expanduser (dir_var a)) = None ->
  let t := MkThread (length (started a)) (PyStr.strip (url_var a))
             (expanduser (dir_var a)) in
  let a' := exec (App_on_download expanduser mkdir) a in
  returns (App_on_download expanduser mkdir) a = true /\
  downloading a' = true /\
  progress_var a' = 0%Q /\
  status_var a' = "Queued…" /\
  thread a' = Some t /\
  started a' = started a ++ [t] /\
  btn_download a' = disabled /\
  btn_cancel a' = normal.
Proof.
  intros _ Hurl Hdir t a'. subst a'.
  unfold exec, returns.
  rewrite (App_on_download_accepted expanduser mkdir a Hurl Hdir).
  repeat split.
Qed.

Lemma busy_submission_starts_second_worker_witness :
  downloading Sample.busy = true /\
  length (started (exec (App_on_download Sample.expanduser Sample.mkdir_ok)
                     Sample.busy)) = 2%nat.
Proof.
  split; [reflexivity|].
  destruct (busy_submission_starts_second_worker Sample.expanduser
              Sample.mkdir_ok Sample.busy eq_refl eq_refl eq_refl)
    as (_ & _ & _ & _ & _ & Hstarted & _).
  rewrite Hstarted. reflexivity.
Defined.

(** The guard the program relies on is the Download button. *)

Lemma App_worker_releases (joinpath : string -> string -> string)
    (YoutubeDL_enter : forall Hook, ydl_opts Hook -> option exn)
    (YoutubeDL_download :
       forall Hook, ydl_opts Hook -> list string -> list event * option exn)
    (t : Thread) (a : App) :
  let a' := exec (App_worker joinpath YoutubeDL_enter YoutubeDL_download t) a in
  downloading a' = false /\ btn_download a' = normal /\
  btn_cancel a' = disabled.
Proof.
  unfold exec, App_worker, try_finally.
  match goal with |- context [match ?b a with _ => _ end] =>
    destruct (b a) as [s' r] end.
  repeat split.
Qed.

Lemma click_download_cases (expanduser : string -> string)
    (mkdir : string -> option exn) (a : App) :
  btn_download a = normal ->
  let a' := exec (click_download expanduser mkdir) a in
  (started a' = started a /\ downloading a' = downloading a /\
   btn_download a' = btn_download a) \/
  (exists t, started a' = started a ++ [t] /\ downloading a' = true /\
   btn_download a' = disabled).
Proof.
  intros Hbtn. unfold exec, click_download. rewrite Hbtn.
  destruct (PyStr.truthy (PyStr.strip (url_var a))) eqn:Hurl.
  - destruct (mkdir (expanduser (dir_var a))) as [e|] eqn:Hdir.
    + rewrite (App_on_download_folder_error _ _ _ e Hurl Hdir). now left.
    + rewrite (App_on_download_accepted _ _ _ Hurl Hdir). right.
      eexists. repeat split.
  - rewrite (App_on_download_blank _ _ _ Hurl). now left.
Qed.

(** X18. Driven through the button, the window never has two workers. *)
Lemma reachable_single_job (expanduser : string -> string)
    (joinpath : string -> string -> string) (mkdir : string -> option exn)
    (YoutubeDL_enter : forall Hook, ydl_opts Hook -> option exn)
    (YoutubeDL_download :
       forall Hook, ydl_opts Hook -> list string -> list event * option exn)
    (home_downloads : string) (sys : System) :
  reachable expanduser joinpath mkdir YoutubeDL_enter YoutubeDL_download
    home_downloads sys ->
  single_job sys.
Proof.
  induction 1 as [|sys sys' _ IH Hstep].
  - left. repeat split.
  - destruct Hstep as [sys url dir quality mp3 | sys a' Ha' | sys t Ht].
    + exact IH.
    + destruct IH as [(Hrun & Hdl & Hbtn) | (t & Hrun & Hdl & Hbtn)].
      * destruct (click_download_cases expanduser mkdir (window sys) Hbtn)
          as [(Hs & Hd & Hb) | (t & Hs & Hd & Hb)];
          rewrite <- Ha' in Hs, Hd, Hb; cbn [window running];
          rewrite Hs, Hrun.
        -- left. cbn [window running]. rewrite drop_all.
           split; [reflexivity | split; congruence].
        -- right. exists t. cbn [window running]. rewrite drop_app_length.
           repeat split; assumption.
      * assert (a' = window sys) as ->
          by (rewrite Ha'; unfold exec, click_download; now rewrite Hbtn).
        right. exists t. cbn [window running].
        rewrite drop_all, app_nil_r. repeat split; assumption.
    + destruct IH as [(Hrun & _) | (t0 & Hrun & _)].
      * rewrite Hrun in Ht. now apply elem_of_nil in Ht.
      * rewrite Hrun in Ht. apply list_elem_of_singleton in Ht. subst t0.
        left. cbn [window running]. rewrite Hrun.
        destruct (App_worker_releases joinpath YoutubeDL_enter
                    YoutubeDL_download t (window sys)) as (Hd & Hb & _).
        repeat split; try assumption.
        cbn [List.remove]. now destruct (Thread_eq_dec t t).
Qed.

(** * Further properties of the program *)

(** ** Strings *)

Lemma append_cons (c : ascii) (s t : string) :
  String c s +:+ t = String c (s +:+ t).
Proof. reflexivity. Qed.

Lemma append_assoc (s1 s2 s3 : string) :
  (s1 +:+ s2) +:+ s3 = s1 +:+ (s2 +:+ s3).
Proof.
  induction s1 as [|c s1 IH]; [reflexivity|].
  rewrite !append_cons. now rewrite IH.
Qed.

Lemma append_nil_r (s : string) : s +:+ "" = s.
Proof.
  induction s as [|c s IH]; [reflexivity|].
  rewrite append_cons. now rewrite IH.
Qed.

Lemma startswith_nil (s : string) : PyStr.startswith s "" = true.
Proof. now destruct s. Qed.

Lemma startswith_cons (c d : ascii) (s p : string) :
  PyStr.startswith (String d s) (String c p)
  = if Ascii.eqb c d then PyStr.startswith s p else false.
Proof. reflexivity. Qed.

Lemma startswith_spec (s p : string) :
  PyStr.startswith s p = true <-> exists rest, s = p +:+ rest.
Proof.
  split.
  - revert s. induction p as [|c p IH]; intros s H.
    + now exists s.
    + destruct s as [|d s]; [discriminate H|].
      rewrite startswith_cons in H.
      destruct (Ascii.eqb c d) eqn:Hcd; [|discriminate H].
      apply Ascii.eqb_eq in Hcd. subst d.
      destruct (IH s H) as [rest ->]. now exists rest.
  - intros [rest ->]. apply startswith_app.
Qed.

Lemma lstrip_spaces (s : string) :
  Forall (fun c => PyStr.isspace c = true) (String.list_ascii_of_string s) ->
  PyStr.lstrip s = "".
Proof.
  induction s as [|c s IH]; intros H; [reflexivity|].
  cbn [String.list_ascii_of_string] in H.
  apply Forall_cons in H as [Hc Hs].
  cbn [PyStr.lstrip]. rewrite Hc. now apply IH.
Qed.

(** A string of white space only strips to the empty string. *)
Lemma strip_spaces (s : string) :
  Forall (fun c => PyStr.isspace c = true) (String.list_ascii_of_string s) ->
  PyStr.strip s = "".
Proof.
  intros H. unfold PyStr.strip. now rewrite lstrip_spaces.
Qed.

(** ** The entry point *)

(** X1. The command line is run exactly when some argument after the
    program name starts with two dashes; otherwise, also with
    positional arguments only, the window is opened. *)
Theorem main_mode_cli_iff (argv : list string) :
  main_mode argv = CLI <->
  exists arg rest, arg ∈ drop 1 argv /\ arg = "--" +:+ rest.
Proof.
  unfold main_mode. split.
  - destruct (1 <? length argv)%nat; [|discriminate].
    destruct (existsb _ _) eqn:Hex; [|discriminate]. intros _.
    apply existsb_exists in Hex as (arg & Hin & Hpre).
    apply startswith_spec in Hpre as [rest ->].
    exists ("--" +:+ rest), rest. split; [|reflexivity].
    now apply list_elem_of_In.
  - intros (arg & rest & Hin & ->).
    assert (Hlen : (1 <? length argv)%nat = true).
    { apply Nat.ltb_lt. destruct argv as [|a0 [|a1 argv]]; simpl in *;
        try lia; now apply elem_of_nil in Hin. }
    rewrite Hlen.
    assert (Hex : existsb (fun s => PyStr.startswith s "--") (drop 1 argv)
                  = true).
    { apply existsb_exists. exists ("--" +:+ rest). split.
      - now apply list_elem_of_In.
      - apply startswith_app. }
    now rewrite Hex.
Qed.

(** Settles a decidable statement on closed terms by evaluation. *)
Ltac by_evaluation := apply (bool_decide_unpack _); vm_compute; exact I.

(** ** The quality choices of the command line *)

(** X2. Every accepted [--quality] choice is turned into a key of the
    table, and a key of the table is passed on as it is: the default
    of the table lookup is never needed from the command line. *)
Theorem cli_quality_in_table (c : string) :
  c ∈ quality_choices ->
  cli_quality c ∈ QUALITY_KEYS /\
  is_Some (QUALITY_MAP !! cli_quality c) /\
  (c ∈ QUALITY_KEYS -> cli_quality c = c) /\
  cli_quality (cli_quality c) = cli_quality c.
Proof.
  intros Hc.
  assert (Hcases : c ∈ [ "Best (video+audio)"; "1080p (if available)";
                         "720p (if available)"; "Audio only (m4a/mp3)";
                         "best"; "1080p"; "720p"; "audio" ]) by exact Hc.
  clear Hc. rewrite !elem_of_cons, elem_of_nil in Hcases.
  destruct Hcases as [-> | [-> | [-> | [-> | [-> | [-> | [-> | [-> | []]]]]]]]];
    (split; [by_evaluation|]); (split; [eexists; reflexivity|]);
    (split; [|reflexivity]);
    first [ intros _; reflexivity
          | intros Hin; apply (bool_decide_pack _) in Hin;
            vm_compute in Hin; destruct Hin ].
Qed.

Lemma cli_quality_in_table_witness :
  "720p" ∈ quality_choices /\ cli_quality "720p" ∈ QUALITY_KEYS.
Proof.
  assert (H : "720p" ∈ quality_choices) by by_evaluation.
  split; [exact H|].
  exact (proj1 (cli_quality_in_table "720p" H)).
Defined.

(** ** The option builder on any label *)

(** X3. Whatever the label, the builder returns options (the table lookup
    cannot fail), with exactly one post-processor, the selector of the
    table for a label of the table, and the same engine settings: four
    concurrent fragments, five retries, output merged to mp4, download
    errors ignored. *)
Theorem build_ydl_opts_any_label {Hook} (joinpath : string -> string -> string)
    (save_dir quality_key : string) (flag : bool) (hook : option Hook) :
  exists opts,
    build_ydl_opts joinpath save_dir quality_key flag hook = Ok opts /\
    length (postprocessors opts) = 1%nat /\
    (forall fmt, QUALITY_MAP !! quality_key = Some fmt -> format opts = fmt) /\
    outtmpl opts = joinpath save_dir "%(title)s [%(id)s].%(ext)s" /\
    concurrent_fragment_downloads opts = 4 /\
    retries opts = 5 /\
    merge_output_format opts = "mp4" /\
    ignoreerrors opts = "only_download".
Proof.
  unfold build_ydl_opts. rewrite quality_format_total.
  eexists. split; [reflexivity|]. cbn.
  split; [unfold build_postprocessors; now destruct (PyStr.contains _ _)|].
  split; [intros fmt ->; reflexivity|]. repeat split.
Qed.

(** X4. The MP3 preference has no effect on a label that does not contain
    "Audio only": the two runs are the same, whatever yt-dlp does. *)
Theorem prefer_mp3_ignored_for_video {S}
    (joinpath : string -> string -> string)
    (YoutubeDL_enter : forall Hook, ydl_opts Hook -> option exn)
    (YoutubeDL_download :
       forall Hook, ydl_opts Hook -> list string -> list event * option exn)
    (url save_dir quality_key : string)
    (hook : event -> M S unit) (log : string -> M S unit) (s : S) :
  PyStr.contains "Audio only" quality_key = false ->
  run_download joinpath YoutubeDL_enter YoutubeDL_download
    url save_dir quality_key true hook log s
  = run_download joinpath YoutubeDL_enter YoutubeDL_download
      url save_dir quality_key false hook log s.
Proof.
  intros H. unfold run_download. now rewrite H.
Qed.

Lemma prefer_mp3_ignored_for_video_witness :
  PyStr.contains "Audio only" "720p (if available)" = false /\
  run_cli Sample.expanduser Sample.joinpath Sample.mkdir_ok Sample.enter_ok
    Sample.download_ok
    (MkArgs "https://youtu.be/abc" "/tmp/out" "720p" true) ""
  = run_cli Sample.expanduser Sample.joinpath Sample.mkdir_ok Sample.enter_ok
      Sample.download_ok
      (MkArgs "https://youtu.be/abc" "/tmp/out" "720p" false) "".
Proof.
  split; [reflexivity|].
  exact (prefer_mp3_ignored_for_video Sample.joinpath Sample.enter_ok
           Sample.download_ok "https://youtu.be/abc" "/tmp/out"
           "720p (if available)" cli_hook cli_log "" eq_refl).
Defined.

(** ** The percentage of the progress hooks *)

Lemma Q_truthy_pos (q : Q) : (0 < q)%Q -> Q_truthy q = true.
Proof.
  unfold Qlt, Q_truthy. cbn. intros H.
  destruct (Qnum q =? 0) eqn:E; [|reflexivity].
  apply Z.eqb_eq in E. lia.
Qed.

Lemma Q_falsy_zero (q : Q) : Q_truthy q = false -> (q == 0)%Q.
Proof.
  unfold Q_truthy, Qeq. cbn. intros H.
  apply negb_false_iff, Z.eqb_eq in H. rewrite H. reflexivity.
Qed.

Lemma or_num_some (q : Q) : (or_num (Some q) 0 == q)%Q.
Proof.
  unfold or_num. destruct (Q_truthy q) eqn:E; [reflexivity|].
  symmetry. now apply Q_falsy_zero.
Qed.

Lemma hook_total_known (d : event) (t : Q) :
  total_bytes d = Some t -> (0 < t)%Q -> hook_total d = t.
Proof.
  intros Ht Hpos. unfold hook_total. rewrite Ht.
  now rewrite (Q_truthy_pos t Hpos).
Qed.

Lemma hook_pct_known (d : event) (t n : Q) :
  total_bytes d = Some t -> (0 < t)%Q -> downloaded_bytes d = Some n ->
  (hook_pct d == n / t * 100)%Q.
Proof.
  intros Ht Hpos Hn. unfold hook_pct, hook_downloaded.
  rewrite (hook_total_known d t Ht Hpos), (Q_truthy_pos t Hpos), Hn.
  now rewrite or_num_some.
Qed.

(** X5. With a known positive total and a downloaded count between 0 and
    the total, the percentage is downloaded / total * 100 and lies
    between 0 and 100. *)
Theorem hook_pct_in_range (d : event) (t n : Q) :
  total_bytes d = Some t -> (0 < t)%Q ->
  downloaded_bytes d = Some n -> (0 <= n)%Q -> (n <= t)%Q ->
  (hook_pct d == n / t * 100)%Q /\
  (0 <= hook_pct d)%Q /\ (hook_pct d <= 100)%Q.
Proof.
  intros Ht Hpos Hn H0 Hle.
  pose proof (hook_pct_known d t n Ht Hpos Hn) as Heq.
  split; [exact Heq|]. rewrite Heq. split.
  - apply Qmult_le_0_compat; [|discriminate].
    apply Qle_shift_div_l; [exact Hpos|]. now rewrite Qmult_0_l.
  - apply Qle_trans with (1 * 100)%Q; [|discriminate].
    apply Qmult_le_compat_r; [|discriminate].
    apply Qle_shift_div_r; [exact Hpos|]. now rewrite Qmult_1_l.
Qed.

Lemma hook_pct_in_range_witness :
  (0 <= hook_pct Sample.halfway)%Q /\ (hook_pct Sample.halfway <= 100)%Q.
Proof.
  exact (proj2 (hook_pct_in_range Sample.halfway 1000000 500000
                  eq_refl eq_refl eq_refl
                  ltac:(discriminate) ltac:(discriminate))).
Defined.



(** X7. With no usable [total_bytes] (absent or zero) the estimate takes
    its place in the percentage. *)
Theorem hook_pct_uses_estimate (d : event) (t n : Q) :
  optQ_truthy (total_bytes d) = false ->
  total_bytes_estimate d = Some t -> (0 < t)%Q ->
  downloaded_bytes d = Some n ->
  hook_total d = t /\ (hook_pct d == n / t * 100)%Q.
Proof.
  intros Hno He Hpos Hn.
  assert (Htot : hook_total d = t).
  { unfold hook_total. rewrite He.
    destruct (total_bytes d) as [q|]; cbn in Hno; [rewrite Hno|];
      unfold or_num; now rewrite (Q_truthy_pos t Hpos). }
  split; [exact Htot|].
  unfold hook_pct, hook_downloaded.
  rewrite Htot, (Q_truthy_pos t Hpos), Hn. now rewrite or_num_some.
Qed.

Lemma hook_pct_uses_estimate_witness :
  (hook_pct (Event (Some "downloading") (Some 0%Q) (Some 2000%Q)
               (Some 500%Q) None None) == 500 / 2000 * 100)%Q.
Proof.
  exact (proj2 (hook_pct_uses_estimate
                  (Event (Some "downloading") (Some 0%Q) (Some 2000%Q)
                     (Some 500%Q) None None)
                  2000 500 eq_refl eq_refl eq_refl eq_refl)).
Defined.

(** ** What the hooks leave alone *)

(** X8. An event whose status is neither "downloading" nor "finished" (an
    error event, an event without status) changes nothing and prints
    nothing. *)
Theorem hooks_ignore_other_status (d : event) (a : App) (out : string) :
  status d <> Some "downloading" ->
  status d <> Some "finished" ->
  App_hook d a = (a, Ok tt) /\ cli_hook d out = (out, Ok tt).
Proof.
  intros Hd Hf. unfold App_hook, cli_hook.
  destruct (decide (status d = Some "downloading")); [contradiction|].
  destruct (decide (status d = Some "finished")); [contradiction|].
  split; reflexivity.
Qed.

Lemma hooks_ignore_other_status_witness :
  App_hook (Event (Some "error") None None None None None) Sample.busy
  = (Sample.busy, Ok tt).
Proof.
  exact (proj1 (hooks_ignore_other_status
                  (Event (Some "error") None None None None None)
                  Sample.busy "" ltac:(discriminate) ltac:(discriminate))).
Defined.

Lemma App_log_spec (msg : string) (a : App) :
  App_log msg a
  = (set_status_var msg (insert_log_txt (msg +:+ String "010" "") a), Ok tt).
Proof. reflexivity. Qed.

Lemma App_hook_spec (d : event) (a : App) :
  exists a',
    App_hook d a = (a', Ok tt) /\
    job_control a' = job_control a /\
    progress_var a' = bar_after [d] (progress_var a) /\
    exists w, log_txt a' = log_txt a +:+ w.
Proof.
  unfold App_hook, bar_after. cbn [fold_left].
  destruct (decide (status d = Some "downloading")).
  - eexists. split; [reflexivity|]. repeat split.
    exists "". cbn. now rewrite append_nil_r.
  - destruct (decide (status d = Some "finished")).
    + eexists. split; [reflexivity|]. repeat split. eexists. reflexivity.
    + exists a. repeat split. exists "". now rewrite append_nil_r.
Qed.

Lemma bar_after_cons (d : event) (evs : list event) (p : Q) :
  bar_after (d :: evs) p = bar_after evs (bar_after [d] p).
Proof. reflexivity. Qed.

(** What yt-dlp's events do to the window, all hooks called in order. *)
Lemma emit_App_hook (evs : list event) (a : App) :
  exists a',
    emit [App_hook] evs a = (a', Ok tt) /\
    job_control a' = job_control a /\
    progress_var a' = bar_after evs (progress_var a) /\
    exists w, log_txt a' = log_txt a +:+ w.
Proof.
  revert a. induction evs as [|d evs IH]; intros a.
  - exists a. repeat split. exists "". now rewrite append_nil_r.
  - destruct (App_hook_spec d a) as (a1 & Hd & Hj1 & Hp1 & w1 & Hl1).
    destruct (IH a1) as (a2 & Hevs & Hj2 & Hp2 & w2 & Hl2).
    exists a2. split.
    + cbn [emit call_hooks]. unfold mbind, M_bind. rewrite Hd.
      cbn [mret M_ret]. exact Hevs.
    + split; [congruence|]. split.
      * rewrite bar_after_cons. congruence.
      * exists (w1 +:+ w2). rewrite Hl2, Hl1. apply append_assoc.
Qed.

Lemma handler_App_log (e : exn) (a : App) :
  match e with
  | DownloadError _ => App_log ("❌ Download failed: " +:+ exn_str e)
  | OtherException _ => App_log ("❌ Unexpected error: " +:+ exn_str e)
  end a
  = App_log (failure_message e) a.
Proof. now destruct e. Qed.

(** What a whole run does to the window. *)
Lemma run_download_window (joinpath : string -> string -> string)
    (YoutubeDL_enter : forall Hook, ydl_opts Hook -> option exn)
    (YoutubeDL_download :
       forall Hook, ydl_opts Hook -> list string -> list event * option exn)
    (url save_dir quality_key : string) (prefer_mp3 : bool) (a : App) :
  exists opts a',
    build_ydl_opts joinpath save_dir quality_key
      (PyStr.contains "Audio only" quality_key && prefer_mp3)
      (Some App_hook) = Ok opts /\
    run_download joinpath YoutubeDL_enter YoutubeDL_download
      url save_dir quality_key prefer_mp3 App_hook App_log a = (a', Ok tt) /\
    job_control a' = job_control a /\
    status_var a'
      = final_line (YoutubeDL_enter _ opts)
          (snd (YoutubeDL_download _ opts [url])) /\
    progress_var a'
      = match YoutubeDL_enter _ opts with
        | Some _ => progress_var a
        | None => bar_after (fst (YoutubeDL_download _ opts [url]))
                    (progress_var a)
        end /\
    exists w,
      log_txt a'
      = log_txt a +:+ w
          +:+ final_line (YoutubeDL_enter _ opts)
                (snd (YoutubeDL_download _ opts [url]))
          +:+ String "010" "".
Proof.
  destruct (build_ydl_opts_ok joinpath save_dir quality_key
              (PyStr.contains "Audio only" quality_key && prefer_mp3)
              (Some App_hook)) as (opts & Hopts & _ & _ & _ & Hhooks).
  exists opts.
  unfold run_download. unfold mbind at 1. unfold M_bind, lift. rewrite Hopts.
  unfold try_except, with_YoutubeDL.
  destruct (YoutubeDL_enter _ opts) as [e|].
  - unfold raise. rewrite handler_App_log, App_log_spec.
    eexists. split; [reflexivity|]. split; [reflexivity|].
    repeat split. exists "". reflexivity.
  - unfold ydl_download. rewrite Hhooks.
    destruct (YoutubeDL_download _ opts [url]) as [evs fin].
    cbn [fmap option_fmap option_map default fst snd final_line].
    unfold mbind, M_bind. rewrite App_log_spec. cbn [id].
    set (a1 := set_status_var _ (insert_log_txt _ a)).
    destruct (emit_App_hook evs a1) as (a2 & Hemit & Hj & Hp & w & Hl).
    rewrite Hemit.
    destruct fin as [e|].
    + unfold raise. rewrite handler_App_log, App_log_spec.
      eexists. split; [reflexivity|]. split; [reflexivity|].
      split; [exact Hj|]. split; [reflexivity|]. split; [exact Hp|].
      exists (("Starting download to: " +:+ save_dir +:+ String "010" "")
                +:+ w).
      cbn [log_txt set_status_var insert_log_txt]. rewrite Hl.
      subst a1. cbn [log_txt set_status_var insert_log_txt].
      now rewrite !append_assoc.
    + cbn [mret M_ret]. rewrite App_log_spec.
      eexists. split; [reflexivity|]. split; [reflexivity|].
      split; [exact Hj|]. split; [reflexivity|]. split; [exact Hp|].
      exists (("Starting download to: " +:+ save_dir +:+ String "010" "")
                +:+ w).
      cbn [log_txt set_status_var insert_log_txt]. rewrite Hl.
      subst a1. cbn [log_txt set_status_var insert_log_txt].
      now rewrite !append_assoc.
Qed.

(** ** A run seen from the window *)

(** X9. Whatever yt-dlp does and whatever events it sends, a run leaves the
    form, the buttons, the flag, the threads and the message boxes as
    they were: it only moves the bar and writes status and log. *)
Theorem run_download_keeps_job_control
    (joinpath : string -> string -> string)
    (YoutubeDL_enter : forall Hook, ydl_opts Hook -> option exn)
    (YoutubeDL_download :
       forall Hook, ydl_opts Hook -> list string -> list event * option exn)
    (url save_dir quality_key : string) (prefer_mp3 : bool) (a : App) :
  job_control (exec (run_download joinpath YoutubeDL_enter YoutubeDL_download
                       url save_dir quality_key prefer_mp3 App_hook App_log) a)
  = job_control a.
Proof.
  destruct (run_download_window joinpath YoutubeDL_enter YoutubeDL_download
              url save_dir quality_key prefer_mp3 a)
    as (opts & a' & _ & Hrun & Hj & _).
  unfold exec. now rewrite Hrun.
Qed.

(** X10. A run ends on its verdict: the status line is the success line when
    yt-dlp returned and the failure line of the exception when it
    raised, and that line is the last one of the log, after everything
    that was logged before. *)
Theorem run_download_ends_on_verdict
    (joinpath : string -> string -> string)
    (YoutubeDL_enter : forall Hook, ydl_opts Hook -> option exn)
    (YoutubeDL_download :
       forall Hook, ydl_opts Hook -> list string -> list event * option exn)
    (url save_dir quality_key : string) (prefer_mp3 : bool) (a : App) :
  exists opts,
    build_ydl_opts joinpath save_dir quality_key
      (PyStr.contains "Audio only" quality_key && prefer_mp3)
      (Some App_hook) = Ok opts /\
    let a' := exec (run_download joinpath YoutubeDL_enter YoutubeDL_download
                      url save_dir quality_key prefer_mp3 App_hook App_log) a in
    let verdict := final_line (YoutubeDL_enter _ opts)
                     (snd (YoutubeDL_download _ opts [url])) in
    status_var a' = verdict /\
    exists w, log_txt a' = log_txt a +:+ w +:+ verdict +:+ String "010" "".
Proof.
  destruct (run_download_window joinpath YoutubeDL_enter YoutubeDL_download
              url save_dir quality_key prefer_mp3 a)
    as (opts & a' & Hopts & Hrun & _ & Hst & _ & Hlog).
  exists opts. split; [exact Hopts|].
  unfold exec. rewrite Hrun. cbn [fst]. split; assumption.
Qed.

Lemma bar_after_last (evs : list event) (d : event) (p : Q) :
  status d = Some "finished" -> bar_after (evs ++ [d]) p = 100%Q.
Proof.
  intros Hd. unfold bar_after. rewrite fold_left_app. cbn [fold_left].
  rewrite Hd. reflexivity.
Qed.

(** X11. The bar ends where the last progress event put it, whether the run
    succeeded or not: at 100 when the last event was "finished"; it is
    not touched when yt-dlp could not even be entered. *)
Theorem run_download_bar
    (joinpath : string -> string -> string)
    (YoutubeDL_enter : forall Hook, ydl_opts Hook -> option exn)
    (YoutubeDL_download :
       forall Hook, ydl_opts Hook -> list string -> list event * option exn)
    (url save_dir quality_key : string) (prefer_mp3 : bool) (a : App) :
  exists opts,
    build_ydl_opts joinpath save_dir quality_key
      (PyStr.contains "Audio only" quality_key && prefer_mp3)
      (Some App_hook) = Ok opts /\
    let a' := exec (run_download joinpath YoutubeDL_enter YoutubeDL_download
                      url save_dir quality_key prefer_mp3 App_hook App_log) a in
    (YoutubeDL_enter _ opts <> None -> progress_var a' = progress_var a) /\
    (YoutubeDL_enter _ opts = None ->
     progress_var a'
       = bar_after (fst (YoutubeDL_download _ opts [url])) (progress_var a)) /\
    (YoutubeDL_enter _ opts = None ->
     forall evs d,
       fst (YoutubeDL_download _ opts [url]) = evs ++ [d] ->
       status d = Some "finished" ->
       progress_var a' = 100%Q).
Proof.
  destruct (run_download_window joinpath YoutubeDL_enter YoutubeDL_download
              url save_dir quality_key prefer_mp3 a)
    as (opts & a' & Hopts & Hrun & _ & _ & Hbar & _).
  exists opts. split; [exact Hopts|].
  unfold exec. rewrite Hrun. cbn [fst].
  destruct (YoutubeDL_enter _ opts) as [e|].
  - split; [intros _; exact Hbar|]. split; discriminate.
  - split; [intros H; now elim H|]. split; [intros _; exact Hbar|].
    intros _ evs d Hevs Hd. rewrite Hbar, Hevs. now apply bar_after_last.
Qed.

(** ** The worker thread *)

(** X12. A worker always ends without an exception, with the flag down,
    Download enabled and Cancel disabled, also when yt-dlp failed; the
    form, the recorded thread and the list of started threads are as
    before, and the status line is the verdict of the run. *)
Theorem App_worker_always_releases
    (joinpath : string -> string -> string)
    (YoutubeDL_enter : forall Hook, ydl_opts Hook -> option exn)
    (YoutubeDL_download :
       forall Hook, ydl_opts Hook -> list string -> list event * option exn)
    (t : Thread) (a : App) :
  exists a',
    App_worker joinpath YoutubeDL_enter YoutubeDL_download t a = (a', Ok tt) /\
    downloading a' = false /\
    btn_download a' = normal /\
    btn_cancel a' = disabled /\
    (url_var a', dir_var a', quality_var a', prefer_mp3_var a')
      = (url_var a, dir_var a, quality_var a, prefer_mp3_var a) /\
    thread a' = thread a /\
    started a' = started a /\
    dialogs a' = dialogs a /\
    status_var a'
      = status_var (exec (run_download joinpath YoutubeDL_enter
                            YoutubeDL_download (th_url t) (th_save_dir t)
                            (quality_var a) (prefer_mp3_var a)
                            App_hook App_log) a).
Proof.
  destruct (run_download_window joinpath YoutubeDL_enter YoutubeDL_download
              (th_url t) (th_save_dir t) (quality_var a) (prefer_mp3_var a) a)
    as (opts & a1 & _ & Hrun & Hj & _).
  unfold App_worker, try_finally, exec.
  unfold mbind at 1. unfold M_bind at 1. unfold gets at 1.
  unfold mbind at 1. unfold M_bind at 1. unfold gets at 1.
  rewrite Hrun.
  eexists. split; [reflexivity|].
  unfold job_control in Hj. injection Hj as Hu Hd Hq Hm _ _ _ Ht Hdi Hs _.
  cbn. repeat split; congruence.
Qed.

Lemma run_download_bar_witness :
  progress_var
    (exec (run_download Sample.joinpath Sample.enter_ok Sample.download_ok
             "https://youtu.be/abc" "/tmp/out" "720p (if available)" false
             App_hook App_log) Sample.ready) = 100%Q.
Proof.
  destruct (run_download_bar Sample.joinpath Sample.enter_ok
              Sample.download_ok "https://youtu.be/abc" "/tmp/out"
              "720p (if available)" false Sample.ready)
    as (opts & _ & _ & _ & H100).
  exact (H100 eq_refl [Sample.halfway] Sample.finished eq_refl eq_refl).
Defined.

(** ** A run seen from the terminal *)

(** What a hook prints does not depend on what was printed before. *)
Lemma cli_hook_appends (d : event) (out : string) :
  cli_hook d out = (out +:+ fst (cli_hook d ""), Ok tt).
Proof.
  unfold cli_hook.
  destruct (decide (status d = Some "downloading")); [reflexivity|].
  destruct (decide (status d = Some "finished")); [reflexivity|].
  cbn. now rewrite append_nil_r.
Qed.

Lemma emit_cons_ok {S} (hook : event -> M S unit) (d : event)
    (evs : list event) (s s' : S) :
  hook d s = (s', Ok tt) -> emit [hook] (d :: evs) s = emit [hook] evs s'.
Proof.
  intros H. cbn [emit call_hooks]. unfold mbind, M_bind. now rewrite H.
Qed.

Lemma emit_cli_hook (evs : list event) (out : string) :
  emit [cli_hook] evs out = (out +:+ fst (emit [cli_hook] evs ""), Ok tt).
Proof.
  revert out. induction evs as [|d evs IH]; intros out.
  - cbn. now rewrite append_nil_r.
  - assert (Hnil : cli_hook d "" = (fst (cli_hook d ""), Ok tt))
      by (rewrite (cli_hook_appends d "") at 1; reflexivity).
    rewrite (emit_cons_ok cli_hook d evs _ _ (cli_hook_appends d out)).
    rewrite (emit_cons_ok cli_hook d evs _ _ Hnil).
    rewrite (IH (out +:+ _)), (IH (fst (cli_hook d ""))).
    cbn [fst]. now rewrite append_assoc.
Qed.

Lemma cli_log_spec (msg out : string) :
  cli_log msg out = (out +:+ msg +:+ String "010" "", Ok tt).
Proof. reflexivity. Qed.

Lemma handler_cli_log (e : exn) (out : string) :
  match e with
  | DownloadError _ => cli_log ("❌ Download failed: " +:+ exn_str e)
  | OtherException _ => cli_log ("❌ Unexpected error: " +:+ exn_str e)
  end out
  = (out +:+ failure_message e +:+ String "010" "", Ok tt).
Proof. now destruct e. Qed.

(** The transcript of a command-line run, once the folder exists. *)
Lemma run_download_terminal (joinpath : string -> string -> string)
    (YoutubeDL_enter : forall Hook, ydl_opts Hook -> option exn)
    (YoutubeDL_download :
       forall Hook, ydl_opts Hook -> list string -> list event * option exn)
    (url save_dir quality_key : string) (prefer_mp3 : bool) (out : string) :
  exists opts,
    build_ydl_opts joinpath save_dir quality_key
      (PyStr.contains "Audio only" quality_key && prefer_mp3)
      (Some cli_hook) = Ok opts /\
    run_download joinpath YoutubeDL_enter YoutubeDL_download
      url save_dir quality_key prefer_mp3 cli_hook cli_log out
    = (out +:+
         match YoutubeDL_enter _ opts with
         | Some e => failure_message e +:+ String "010" ""
         | None =>
             ("Starting download to: " +:+ save_dir) +:+ String "010" ""
             +:+ fst (emit [cli_hook] (fst (YoutubeDL_download _ opts [url])) "")
             +:+ final_line None (snd (YoutubeDL_download _ opts [url]))
             +:+ String "010" ""
         end, Ok tt).
Proof.
  destruct (build_ydl_opts_ok joinpath save_dir quality_key
              (PyStr.contains "Audio only" quality_key && prefer_mp3)
              (Some cli_hook)) as (opts & Hopts & _ & _ & _ & Hhooks).
  exists opts. split; [exact Hopts|].
  unfold run_download. unfold mbind at 1. unfold M_bind, lift. rewrite Hopts.
  unfold try_except, with_YoutubeDL.
  destruct (YoutubeDL_enter _ opts) as [e|].
  - unfold raise. now rewrite handler_cli_log.
  - unfold ydl_download. rewrite Hhooks.
    destruct (YoutubeDL_download _ opts [url]) as [evs fin].
    cbn [fmap option_fmap option_map default fst snd final_line].
    unfold mbind, M_bind. rewrite cli_log_spec. cbn [id].
    rewrite emit_cli_hook.
    destruct fin as [e|].
    + unfold raise. rewrite handler_cli_log.
      now rewrite !append_assoc.
    + cbn [mret M_ret]. rewrite cli_log_spec.
      now rewrite !append_assoc.
Qed.


(** X14. The command line only adds to the terminal. With a usable folder
    it prints the start line with the folder, then what the hooks print
    for the events, then the verdict line; when yt-dlp cannot be
    entered it prints the failure line alone. *)
Theorem run_cli_transcript
    (expanduser : string -> string) (joinpath : string -> string -> string)
    (mkdir : string -> option exn)
    (YoutubeDL_enter : forall Hook, ydl_opts Hook -> option exn)
    (YoutubeDL_download :
       forall Hook, ydl_opts Hook -> list string -> list event * option exn)
    (args : Namespace) (out : string) :
  mkdir (expanduser (args_out args)) = None ->
  exists opts,
    build_ydl_opts joinpath (expanduser (args_out args))
      (cli_quality (args_quality args))
      (PyStr.contains "Audio only" (cli_quality (args_quality args))
         && args_prefer_mp3 args)
      (Some cli_hook) = Ok opts /\
    fst (run_cli expanduser joinpath mkdir YoutubeDL_enter YoutubeDL_download
           args out)
    = out +:+
        match YoutubeDL_enter _ opts with
        | Some e => failure_message e +:+ String "010" ""
        | None =>
            ("Starting download to: " +:+ expanduser (args_out args))
            +:+ String "010" ""
            +:+ fst (emit [cli_hook]
                       (fst (YoutubeDL_download _ opts [args_url args])) "")
            +:+ final_line None
                  (snd (YoutubeDL_download _ opts [args_url args]))
            +:+ String "010" ""
        end.
Proof.
  intros Hdir. unfold run_cli. rewrite Hdir.
  destruct (run_download_terminal joinpath YoutubeDL_enter YoutubeDL_download
              (args_url args) (expanduser (args_out args))
              (cli_quality (args_quality args)) (args_prefer_mp3 args) out)
    as (opts & Hopts & Hrun).
  exists opts. split; [exact Hopts|]. now rewrite Hrun.
Qed.

Lemma run_cli_transcript_witness :
  fst (run_cli Sample.expanduser Sample.joinpath Sample.mkdir_ok
         Sample.enter_ok Sample.download_fails
         (MkArgs "https://youtu.be/abc" "/tmp/out" "720p" false) "")
  = "Starting download to: /tmp/out" +:+ String "010" ""
    +:+ String "013" "" +:+ " 50.0%"
    +:+ "❌ Download failed: ERROR: Video unavailable" +:+ String "010" "".
Proof.
  destruct (run_cli_transcript Sample.expanduser Sample.joinpath
              Sample.mkdir_ok Sample.enter_ok Sample.download_fails
              (MkArgs "https://youtu.be/abc" "/tmp/out" "720p" false) ""
              eq_refl) as (opts & _ & Hrun).
  rewrite Hrun. vm_compute. reflexivity.
Defined.

(** ** Cancel *)

(** X15. Cancel always closes the window. It shows its notice only while a
    job is flagged as running, and it does not stop that job: flag,
    recorded thread and started threads are as before. *)
Theorem App_on_cancel_closes (a : App) :
  exists a',
    App_on_cancel a = (a', Ok tt) /\
    destroyed a' = true /\
    dialogs a'
      = dialogs a ++ (if downloading a
                      then [showinfo "Cancel" "Stopping after current fragment…"]
                      else []) /\
    downloading a' = downloading a /\
    thread a' = thread a /\
    started a' = started a /\
    snapshot a' = snapshot a.
Proof.
  unfold App_on_cancel, mbind, M_bind, gets.
  destruct (downloading a) eqn:Hd; eexists; (split; [reflexivity|]);
    cbn; rewrite ?app_nil_r, ?Hd; repeat split.
Qed.

(** ** The URL field *)







(** X16. A URL field holding white space only is a missing URL: the warning
    is shown and nothing else happens, whatever the folder is. *)
Theorem blank_url_only_warns (expanduser : string -> string)
    (mkdir : string -> option exn) (a : App) :
  Forall (fun c => PyStr.isspace c = true)
    (String.list_ascii_of_string (url_var a)) ->
  App_on_download expanduser mkdir a
  = (show_dialog (showwarning "Missing URL"
       "Please paste a YouTube video or playlist URL.") a, Ok tt).
Proof.
  intros H. apply App_on_download_blank. now rewrite strip_spaces.
Qed.

Lemma blank_url_only_warns_witness :
  started (exec (App_on_download Sample.expanduser Sample.mkdir_ok)
             (set_entries (String "009" "  ") "/tmp/out" "720p (if available)"
                false (App_init "/home/u/Downloads"))) = [].
Proof.
  unfold exec.
  rewrite (blank_url_only_warns Sample.expanduser Sample.mkdir_ok
             (set_entries (String "009" "  ") "/tmp/out" "720p (if available)"
                false (App_init "/home/u/Downloads"))).
  - reflexivity.
  - cbn. repeat constructor.
Defined.



(** ** One job at a time *)

Lemma reachable_single_job_witness :
  single_job
    (MkSystem
       (exec (click_download Sample.expanduser Sample.mkdir_ok) Sample.ready)
       [MkThread 0 "https://youtu.be/abc" "/tmp/out"]).
Proof.
  apply (reachable_single_job Sample.expanduser Sample.joinpath
           Sample.mkdir_ok Sample.enter_ok Sample.download_ok "/tmp/out").
  eapply reachable_step.
  - eapply reachable_step; [apply reachable_init|].
    exact (step_edit _ _ _ _ _ (MkSystem (App_init "/tmp/out") [])
             " https://youtu.be/abc " "/tmp/out" "720p (if available)" false).
  - exact (step_click Sample.expanduser Sample.joinpath Sample.mkdir_ok
             Sample.enter_ok Sample.download_ok
             (MkSystem Sample.ready []) _ eq_refl).
Defined.

(** ** The messages of a run *)

(** X19. A sink that records its messages receives, in this order: the
    failure line alone when yt-dlp cannot be entered; otherwise the
    start line with the folder, then the failure line when the download
    raised and the success line when it returned. Nothing is logged
    before or between them by [run_download] itself. *)
Theorem sink_receives_start_then_verdict
    (joinpath : string -> string -> string)
    (YoutubeDL_enter : forall Hook, ydl_opts Hook -> option exn)
    (YoutubeDL_download :
       forall Hook, ydl_opts Hook -> list string -> list event * option exn)
    (url save_dir quality_key : string) (prefer_mp3 : bool)
    (before : list string) :
  exists opts,
    build_ydl_opts joinpath save_dir quality_key
      (PyStr.contains "Audio only" quality_key && prefer_mp3)
      (Some (@silent_hook (list string))) = Ok opts /\
    run_download joinpath YoutubeDL_enter YoutubeDL_download
      url save_dir quality_key prefer_mp3 silent_hook sink_log before
    = (before ++
         match YoutubeDL_enter _ opts with
         | Some e => [failure_message e]
         | None =>
             [ "Starting download to: " +:+ save_dir;
               final_line None (snd (YoutubeDL_download _ opts [url])) ]
         end, Ok tt).
Proof.
  destruct (run_download_sink_trace joinpath YoutubeDL_enter
              YoutubeDL_download url save_dir quality_key prefer_mp3 before)
    as (opts & Hopts & Hrun).
  exists opts. split; [exact Hopts|]. rewrite Hrun.
  destruct (YoutubeDL_enter _ opts); [reflexivity|].
  now destruct (snd (YoutubeDL_download _ opts [url])).
Qed.

(** ** The folder chooser *)

(** X20. The folder dialog opens at the folder of the field, or at the
    home folder when the field is empty. Its answer replaces the field
    unless the dialog was cancelled; nothing else in the window
    changes, and the next accepted job is given that folder. *)
Theorem chosen_folder_is_used (expanduser : string -> string)
    (mkdir : string -> option exn) (askdirectory : string -> string)
    (home : string) (a : App) :
  let answer := askdirectory (if PyStr.truthy (dir_var a)
                              then dir_var a else home) in
  let a1 := exec (App_choose_dir askdirectory home) a in
  returns (App_choose_dir askdirectory home) a = true /\
  dir_var a1 = (if PyStr.truthy answer then answer else dir_var a) /\
  set_dir_var (dir_var a) a1 = a /\
  (PyStr.truthy (PyStr.strip (url_var a)) = true ->
   mkdir (expanduser (dir_var a1)) = None ->
   th_save_dir <$> thread (exec (App_on_download expanduser mkdir) a1)
   = Some (expanduser (if PyStr.truthy answer then answer else dir_var a))).
Proof.
  intros answer a1. subst a1.
  unfold exec, returns, App_choose_dir, mbind, M_bind, gets. fold answer.
  destruct (PyStr.truthy answer) eqn:Hans.
  - cbn. split; [reflexivity|]. split; [reflexivity|].
    split; [now destruct a|].
    intros Hurl Hdir.
    rewrite (App_on_download_accepted expanduser mkdir
               (set_dir_var answer a) Hurl Hdir).
    reflexivity.
  - cbn. split; [reflexivity|]. split; [reflexivity|].
    split; [now destruct a|].
    intros Hurl Hdir.
    rewrite (App_on_download_accepted expanduser mkdir a Hurl Hdir).
    reflexivity.
Qed.

Lemma chosen_folder_is_used_witness :
  th_save_dir <$>
    thread (exec (App_on_download Sample.expanduser Sample.mkdir_ok)
              (exec (App_choose_dir (fun _ => "/media/usb") "/home/u")
                 Sample.ready))
  = Some "/media/usb".
Proof.
  exact (proj2 (proj2 (proj2
           (chosen_folder_is_used Sample.expanduser Sample.mkdir_ok
              (fun _ => "/media/usb") "/home/u" Sample.ready)))
           eq_refl eq_refl).
Defined.
